(** * Havven deployment scripts and test harness: a shallow embedding

    The Python sources embedded here are
      - [deploy.py]                       ([Deploy.deploy_havven]),
      - [run_tests.py]                    ([RunTests.main]),
      - [tests/test_utils.py]             ([TestUtils.assertCallReverts],
                                           [TestUtils.assertTransactionReverts]),
      - [tests/contract_interfaces/extern_state_fee_token_interface.py]
                                          ([Facade.ExternStateFeeTokenInterface]),
      - [tests/test_TokenState.py], [tests/test_Owned.py],
        [tests/test_ERC20FeeToken.py]     ([Harness]).

    Every function the sources import from modules that are not part of
    the embedded files (utils.deployutils, utils.generalutils, web3,
    subprocess, unittest's loader and runner) is an *external call*: the
    program issues an event and an arbitrary backend answers it with a
    value or with an exception.  Python's own control flow (sequencing,
    exception propagation, try/except, tuple unpacking, attribute access,
    truthiness) is part of the embedding. *)

From stdpp Require Import base strings list gmap.
From Stdlib Require Import ZArith.

Set Default Proof Using "Type".
Set Warnings "-register-all".

(* ===================================================================== *)
(** ** Python values and exceptions                                       *)
(* ===================================================================== *)

(** Names bound by the sources' import statements (and the builtins they
    call).  A call to one of them is an external event. *)
Inductive extern :=
  | print | attempt | compile_contracts | attempt_deploy
  | mine_tx | mine_txs | take_snapshot | restore_snapshot
  | load_test_settings | py_open | Popen | sleep
  | TestLoader | TextTestRunner | getattr_tests | W3_eth_accounts.

(** The two shapes of lambda the facade constructor builds.
    [LView fn n] is [lambda a1..an: self.contract.functions.fn(a1..an).call()];
    [LMutating fn n label] is
    [lambda sender, a1..an: mine_tx(self.contract.functions.fn(a1..an)
                                     .transact({'from': sender}), label, self.name)]. *)
Inductive lam :=
  | LView (fn : string) (arity : nat)
  | LMutating (fn : string) (arity : nat) (label : string).

Inductive value :=
  | VNone
  | VBool (b : bool)
  | VInt (z : Z)
  | VStr (s : string)
  | VTuple (vs : list value)
  | VList (vs : list value)
  | VDict (kvs : list (string * value))
  | VFunc (f : extern)                         (* an imported function passed as an argument *)
  | VContract (address : string)               (* a web3 contract instance *)
  | VContractFunction (target : value) (fn : string) (fargs : list value)
                                               (* contract.functions.fn(args), not yet called *)
  | VLambda (l : lam)
  | VObject (id : N).                          (* any other object: a compiled batch, a
                                                  process, a module, a test, a result *)

Inductive exn_class :=
  | ValueError | TypeError | AttributeError | KeyError | IndexError
  | AssertionError | Exception_ | OtherError (name : string).

(** An exception instance: its class and its [args] tuple.  An instance
    of a subclass of [ValueError] is represented with class [ValueError];
    a class the code does not name is an [OtherError] with its name. *)
Record exn := mkExn { exn_class_of : exn_class; args : list value }.

(** The built-in classes that derive from [BaseException] without
    deriving from [Exception]. *)
Definition outside_Exception : list string :=
  ["BaseException"; "KeyboardInterrupt"; "SystemExit"; "GeneratorExit";
   "BaseExceptionGroup"].

(** [issubclass(c, Exception)]: what an [except Exception] clause
    catches.  Every class named here other than those of
    [outside_Exception] derives from [Exception]. *)
Definition is_Exception (c : exn_class) : bool :=
  match c with
  | OtherError name => negb (existsb (String.eqb name) outside_Exception)
  | _ => true
  end.

Global Instance exn_class_eq_dec : EqDecision exn_class.
Proof. solve_decision. Defined.

Definition outcome : Type := exn + value.

(** bool(v) *)
Definition truthy (v : value) : bool :=
  match v with
  | VNone => false
  | VBool b => b
  | VInt z => negb (z =? 0)%Z
  | VStr s => negb (String.eqb s "")
  | VTuple vs | VList vs => match vs with [] => false | _ => true end
  | VDict kvs => match kvs with [] => false | _ => true end
  | _ => true
  end.

(** d[k] for a dict with string keys *)
Fixpoint dict_get (kvs : list (string * value)) (k : string) : option value :=
  match kvs with
  | [] => None
  | (k', v) :: rest => if String.eqb k' k then Some v else dict_get rest k
  end.

(** iter(v): the elements a [for] loop or an unpacking sees; [None] when
    [v] is not iterable. *)
Definition py_iter (v : value) : option (list value) :=
  match v with
  | VTuple vs | VList vs => Some vs
  | VDict kvs => Some (map (λ kv, VStr kv.1) kvs)
  | VStr s => Some (map (λ c, VStr (String c EmptyString)) (String.list_ascii_of_string s))
  | _ => None
  end.

(* ===================================================================== *)
(** ** Programs over external events                                      *)
(* ===================================================================== *)

Inductive event :=
  | Call (f : extern) (pos : list value) (kw : list (string * value))
  | Method (recv : value) (name : string) (pos : list value).

(** A program is a tree: it returns, raises, or issues an event and
    continues with the event's outcome (a returned value or the exception
    the callee raised). *)
Inductive prog (R : Type) : Type :=
  | Ret (r : R)
  | Raise (e : exn)
  | Vis (ev : event) (k : outcome → prog R).
Arguments Ret {R} r.
Arguments Raise {R} e.
Arguments Vis {R} ev k.

Fixpoint bind {A B} (p : prog A) (f : A → prog B) : prog B :=
  match p with
  | Ret a => f a
  | Raise e => Raise e
  | Vis ev k => Vis ev (λ o, bind (k o) f)
  end.

Global Instance prog_ret : MRet prog := λ A a, Ret a.
Global Instance prog_bind : MBind prog := λ A B f p, bind p f.

(** [try: p  except <classes> as e: h e], where [catches] tells which
    classes the clause names; an exception of another class passes
    through the statement unchanged. *)
Fixpoint try_except {R} (p : prog R) (catches : exn_class → bool)
    (h : exn → prog R) : prog R :=
  match p with
  | Ret r => Ret r
  | Raise e => if catches (exn_class_of e) then h e else Raise e
  | Vis ev k => Vis ev (λ o, try_except (k o) catches h)
  end.

(** An ordinary call statement: an exception of the callee propagates. *)
Definition call (ev : event) : prog value :=
  Vis ev (λ o, match o with inl e => Raise e | inr v => Ret v end).

(** A backend answers every event from its current state. *)
Record backend := mkBackend {
  world : Type;
  handle : event → world → outcome * world
}.

Definition entry : Type := event * outcome.

Record run_result (R W : Type) := mkRun {
  trace : list entry;
  result : exn + R;
  final : W
}.
Arguments mkRun {R W} trace result final.
Arguments trace {R W} r.
Arguments result {R W} r.
Arguments final {R W} r.

(** Put an event and its outcome in front of the rest of a run. *)
Definition log {R W} (en : entry) (r : run_result R W) : run_result R W :=
  mkRun (en :: trace r) (result r) (final r).
Arguments log : simpl never.

Fixpoint exec {R} (b : backend) (p : prog R) (w : world b) : run_result R (world b) :=
  match p with
  | Ret r => mkRun [] (inr r) w
  | Raise e => mkRun [] (inl e) w
  | Vis ev k =>
      let '(o, w') := handle b ev w in
      log (ev, o) (exec b (k o) w')
  end.


(* --------------------------------------------------------------------- *)
(** *** Python operations used by the sources                             *)
(* --------------------------------------------------------------------- *)

Definition raise_ {R} (c : exn_class) (msg : string) : prog R :=
  Raise (mkExn c [VStr msg]).

(** [a, b = v] *)
Definition unpack2 (v : value) : prog (value * value) :=
  match py_iter v with
  | None => raise_ TypeError "cannot unpack non-iterable object"
  | Some [a; b] => Ret (a, b)
  | Some _ => raise_ ValueError "wrong number of values to unpack"
  end.

(** [v.address] *)
Definition get_address (v : value) : prog value :=
  match v with
  | VContract a => Ret (VStr a)
  | _ => raise_ AttributeError "address"
  end.

(** [v.functions.fn], still to be applied to its arguments *)
Definition functions_ (v : value) (fn : string) : prog (list value → value) :=
  match v with
  | VContract _ => Ret (VContractFunction v fn)
  | _ => raise_ AttributeError "functions"
  end.

(** [f.transact(params)] and [f.call()] *)
Definition transact (f : value) (params : list (string * value)) : prog value :=
  call (Method f "transact" [VDict params]).

Definition call_ (f : value) : prog value :=
  call (Method f "call" []).

(** [print(s)] and an f-string with one interpolated string value *)
Definition print_ (s : string) : prog unit :=
  _ ← call (Call print [VStr s] []); mret tt.

Definition fmt (prefix : string) (v : value) : string :=
  match v with
  | VStr s => prefix +:+ s
  | _ => prefix
  end.


(* --------------------------------------------------------------------- *)
(** *** Subscripts, membership, equality, assertions                      *)
(* --------------------------------------------------------------------- *)

(** [a == b].  Booleans compare as the integers 0 and 1; sequences
    compare element by element; dictionaries are equal when they have as
    many entries and every key of the first has an equal value in the
    second, whatever the order. *)
Fixpoint py_eq (a b : value) {struct a} : bool :=
  let fix list_eq (xs ys : list value) {struct xs} : bool :=
    match xs, ys with
    | [], [] => true
    | x :: xs, y :: ys => py_eq x y && list_eq xs ys
    | _, _ => false
    end in
  let fix dict_sub (xs ys : list (string * value)) {struct xs} : bool :=
    match xs with
    | [] => true
    | (k, x) :: xs =>
        match dict_get ys k with
        | Some y => py_eq x y && dict_sub xs ys
        | None => false
        end
    end in
  match a, b with
  | VNone, VNone => true
  | VBool x, VBool y => Bool.eqb x y
  | VBool x, VInt z | VInt z, VBool x => (z =? (if x then 1 else 0))%Z
  | VInt x, VInt y => (x =? y)%Z
  | VStr x, VStr y => String.eqb x y
  | VTuple xs, VTuple ys => list_eq xs ys
  | VList xs, VList ys => list_eq xs ys
  | VDict xs, VDict ys => Nat.eqb (length xs) (length ys) && dict_sub xs ys
  | VContract x, VContract y => String.eqb x y
  | VObject x, VObject y => (x =? y)%N
  | _, _ => false
  end.

(** [needle in s] for two strings *)
Definition is_substring (needle s : string) : bool :=
  match String.index 0 needle s with Some _ => true | None => false end.

(** [needle in v] for a string [needle] *)
Definition py_contains (needle : string) (v : value) : exn + bool :=
  match v with
  | VStr s => inr (is_substring needle s)
  | VTuple vs | VList vs => inr (existsb (py_eq (VStr needle)) vs)
  | VDict kvs => inr (existsb (λ kv, String.eqb kv.1 needle) kvs)
  | _ => inl (mkExn TypeError [VStr "argument is not iterable"])
  end.

(** [v[k]] for a string key [k] *)
Definition py_getitem (v : value) (k : string) : exn + value :=
  match v with
  | VDict kvs =>
      match dict_get kvs k with
      | Some x => inr x
      | None => inl (mkExn KeyError [VStr k])
      end
  | VStr _ | VTuple _ | VList _ =>
      inl (mkExn TypeError [VStr "indices must be integers"])
  | _ => inl (mkExn TypeError [VStr "object is not subscriptable"])
  end.

(** [t[0]] for the [args] tuple of an exception *)
Definition first_arg (e : exn) : exn + value :=
  match args e with
  | x :: _ => inr x
  | [] => inl (mkExn IndexError [VStr "tuple index out of range"])
  end.

(** Lift a pure Python operation that may raise. *)
Definition lift {R} (x : exn + R) : prog R :=
  match x with inl e => Raise e | inr r => Ret r end.

(** Run [p] and hand back how it ended, whatever the class of what it
    raised. *)
Definition catch {R} (p : prog R) : prog (exn + R) :=
  try_except (p ≫= λ r, Ret (inr r)) (λ _, true) (λ e, Ret (inl e)).

(** unittest.TestCase assertions *)
Definition failure (msg : string) : exn := mkExn AssertionError [VStr msg].

Definition assertTrue (expr : bool) : prog unit :=
  if expr then Ret tt else Raise (failure "False is not true").

Definition assertEqual (first second : value) : prog unit :=
  if py_eq first second then Ret tt else Raise (failure "values differ").

(** [with testcase.assertRaises(cls) as error: body]; yields
    [error.exception].  An exception of another class passes through. *)
Definition assertRaises (cls : exn_class) (body : prog value) : prog exn :=
  o ← catch body;
  match o with
  | inr _ => Raise (failure "exception not raised")
  | inl e => if decide (exn_class_of e = cls) then Ret e else Raise e
  end.


(** [v[i]] for a list or tuple and a natural index *)
Definition py_index (v : value) (i : nat) : exn + value :=
  match v with
  | VTuple vs | VList vs =>
      match vs !! i with
      | Some x => inr x
      | None => inl (mkExn IndexError [VStr "index out of range"])
      end
  | _ => inl (mkExn TypeError [VStr "object is not subscriptable"])
  end.

(** [v[key]] for any key.  Sequences are indexed by integers, negative
    ones counting from the end, and by booleans, which are the integers
    0 and 1; dictionaries have string keys only. *)
Definition py_subscript (v key : value) : exn + value :=
  let at_index (i : Z) : exn + value :=
    match py_iter v, v with
    | _, VDict _ => inl (mkExn KeyError [key])
    | Some vs, _ =>
        let j := (if i <? 0 then i + Z.of_nat (length vs) else i)%Z in
        if (j <? 0)%Z then inl (mkExn IndexError [VStr "index out of range"])
        else py_index (VList vs) (Z.to_nat j)
    | None, _ => inl (mkExn TypeError [VStr "object is not subscriptable"])
    end in
  match key with
  | VStr k => py_getitem v k
  | VInt i => at_index i
  | VBool x => at_index (if x then 1 else 0)%Z
  | _ =>
      match v with
      | VDict _ => inl (mkExn KeyError [key])
      | VStr _ | VTuple _ | VList _ =>
          inl (mkExn TypeError [VStr "indices must be integers"])
      | _ => inl (mkExn TypeError [VStr "object is not subscriptable"])
      end
  end.

(** The elements a [for] statement visits. *)
Definition iterate (v : value) : exn + list value :=
  match py_iter v with
  | Some vs => inr vs
  | None => inl (mkExn TypeError [VStr "object is not iterable"])
  end.


(** The newline character. *)
Definition NL : string := String (Ascii.ascii_of_nat 10) EmptyString.

(* ===================================================================== *)
(** ** deploy.py                                                          *)
(* ===================================================================== *)

Module Deploy.
Section Deploy.
(** [MASTER] and [UNIT] are imported from utils.deployutils. *)
Variable MASTER : value.
Variable UNIT : Z.

Definition SOLIDITY_SOURCES : value :=
  VList [VStr "contracts/Havven.sol"; VStr "contracts/EtherNomin.sol";
         VStr "contracts/Court.sol"; VStr "contracts/HavvenEscrow.sol"].

Definition OWNER := MASTER.
Definition ORACLE := MASTER.
Definition LIQUIDATION_BENEFICIARY := MASTER.
Definition INITIAL_ETH_PRICE : value := VInt (1000 * UNIT).

(** [attempt_deploy(compiled, name, MASTER, ctor_args)] *)
Definition deploy_event (compiled : value) (name : string) (ctor_args : list value) : event :=
  Call attempt_deploy [compiled; VStr name; MASTER; VList ctor_args] [].

(** [attempt(mine_txs, [txs], "Linking contracts... ")] *)
Definition mine_event (txs : list value) : event :=
  Call attempt [VFunc mine_txs; VList [VList txs]; VStr "Linking contracts... "] [].

Definition deploy_havven (print_addresses : bool) : prog value :=
  print_ ("Deployment initiated." +:+ NL);;
  compiled ← call (Call attempt [VFunc compile_contracts; VList [SOLIDITY_SOURCES];
                                 VStr "Compiling contracts... "] []);
  (* Deploy contracts *)
  r ← call (deploy_event compiled "Havven" [OWNER]);
  '(havven_contract, hvn_txr) ← unpack2 r;
  a1 ← get_address havven_contract;
  r ← call (deploy_event compiled "EtherNomin"
              [a1; ORACLE; LIQUIDATION_BENEFICIARY; INITIAL_ETH_PRICE; OWNER]);
  '(nomin_contract, nom_txr) ← unpack2 r;
  a1 ← get_address havven_contract;
  a2 ← get_address nomin_contract;
  r ← call (deploy_event compiled "Court" [a1; a2; OWNER]);
  '(court_contract, court_txr) ← unpack2 r;
  a1 ← get_address havven_contract;
  a2 ← get_address nomin_contract;
  r ← call (deploy_event compiled "HavvenEscrow" [OWNER; a1; a2]);
  '(escrow_contract, escrow_txr) ← unpack2 r;
  (* Hook up each of those contracts to each other *)
  f ← functions_ havven_contract "setNomin";
  a ← get_address nomin_contract;
  tx1 ← transact (f [a]) [("from", MASTER)];
  f ← functions_ havven_contract "setEscrow";
  a ← get_address escrow_contract;
  tx2 ← transact (f [a]) [("from", MASTER)];
  f ← functions_ nomin_contract "setCourt";
  a ← get_address court_contract;
  tx3 ← transact (f [a]) [("from", MASTER)];
  _ ← call (mine_event [tx1; tx2; tx3]);
  print_ (NL +:+ "Deployment complete." +:+ NL);;
  (if print_addresses then
     print_ "Addresses";;
     print_ ("========" +:+ NL);;
     a ← get_address havven_contract; print_ (fmt "Havven: " a);;
     a ← get_address nomin_contract;  print_ (fmt "Nomin:  " a);;
     a ← get_address court_contract;  print_ (fmt "Court:  " a);;
     a ← get_address escrow_contract; print_ (fmt "Escrow: " a);;
     _ ← call (Call print [] []); mret tt
   else mret tt);;
  mret (VTuple [havven_contract; nomin_contract; court_contract;
                hvn_txr; nom_txr; court_txr]).

End Deploy.

(** *** Reading the trace of a deployment run *)

(** The order in which the source deploys the artifacts. *)
Definition plan : list string := ["Havven"; "EtherNomin"; "Court"; "HavvenEscrow"].

(** The earlier artifacts whose addresses the constructor arguments of
    [name] mention in the source. *)
Definition depends_on (name : string) : list string :=
  if String.eqb name "EtherNomin" then ["Havven"]
  else if String.eqb name "Court" then ["Havven"; "EtherNomin"]
  else if String.eqb name "HavvenEscrow" then ["Havven"; "EtherNomin"]
  else [].

Definition deployed_name (en : entry) : option string :=
  match en.1 with
  | Call attempt_deploy [_; VStr name; _; _] _ => Some name
  | _ => None
  end.

(** The instance a successful deployment step handed back. *)
Definition deployed_instance (en : entry) : option value :=
  match en with
  | (Call attempt_deploy _ _, inr r) =>
      match py_iter r with Some [c; _] => Some c | _ => None end
  | _ => None
  end.

Definition deployed_instances (tr : list entry) : list value :=
  omap deployed_instance tr.

(** The run ended in a deployment step that raised [e]. *)
Definition deploy_step_failed (tr : list entry) (e : exn) : Prop :=
  ∃ en, last tr = Some en ∧ is_Some (deployed_name en) ∧ en.2 = inl e.

Definition is_link_submission (en : entry) : bool :=
  match en.1 with
  | Method (VContractFunction _ _ _) "transact" _ => true
  | _ => false
  end.

(** A receipt that signals failure: its status field is 0. *)
Definition receipt_signals_failure (rc : value) : Prop :=
  py_getitem rc "status" = inr (VInt 0).

(** What comes right after the deployment step of [name] when the
    pipeline goes on: the deployment step of the next artifact of the
    plan, or, after the last one, a link submission. *)
Definition pipeline_goes_on (name : string) (en : entry) : Prop :=
  ∃ i, plan !! i = Some name ∧
       match plan !! S i with
       | Some next => deployed_name en = Some next
       | None => is_link_submission en = true
       end.



End Deploy.


(* ===================================================================== *)
(** ** tests/test_utils.py                                                *)
(* ===================================================================== *)

Module TestUtils.

Definition assertCallReverts (testcase : value) (function : value) : prog unit :=
  error_exception ← assertRaises ValueError (call_ function);
  payload ← lift (first_arg error_exception);
  message ← lift (py_getitem payload "message");
  found ← lift (py_contains "revert" message);
  assertTrue found;;
  payload ← lift (first_arg error_exception);
  code ← lift (py_getitem payload "code");
  assertEqual (VInt (-32000)) code.

Definition assertTransactionReverts (testcase : value) (function : value)
    (caller : value) (gas : value) : prog unit :=
  error_exception ← assertRaises ValueError
    (tx ← transact function [("from", caller); ("gas", gas)];
     call (Call mine_tx [tx] []));
  payload ← lift (first_arg error_exception);
  message ← lift (py_getitem payload "message");
  found ← lift (py_contains "revert" message);
  assertTrue found;;
  payload ← lift (first_arg error_exception);
  code ← lift (py_getitem payload "code");
  assertEqual (VInt (-32000)) code.


(** The backend's signal for a rejection by program logic: a
    [ValueError] whose first argument is an error object with a message
    containing "revert" and with code -32000. *)
Definition revert_signal (e : exn) : Prop :=
  exn_class_of e = ValueError ∧
  ∃ payload message code,
    first_arg e = inr payload ∧
    py_getitem payload "message" = inr message ∧
    py_contains "revert" message = inr true ∧
    py_getitem payload "code" = inr code ∧
    py_eq (VInt (-32000)) code = true.

End TestUtils.

(* ===================================================================== *)
(** ** tests/contract_interfaces/extern_state_fee_token_interface.py      *)
(* ===================================================================== *)

Module Facade.

(** A Python object is its attribute dictionary. *)
Abbreviation obj := (gmap string value).

(** [self.a] *)
Definition getattr (self : obj) (a : string) : prog value :=
  match self !! a with
  | Some v => Ret v
  | None => raise_ AttributeError a
  end.

(** Calling one of the constructor's lambdas with positional arguments
    [pos].  [self] is the object the lambda closed over: its attributes
    are read when the lambda runs. *)
Definition apply_lambda (self : obj) (l : lam) (pos : list value) : prog value :=
  match l with
  | LView fn arity =>
      if decide (length pos = arity) then
        contract ← getattr self "contract";
        f ← functions_ contract fn;
        call_ (f pos)
      else raise_ TypeError "wrong number of positional arguments"
  | LMutating fn arity label =>
      match pos with
      | [] => raise_ TypeError "missing required positional argument: sender"
      | sender :: rest =>
          if decide (length rest = arity) then
            contract ← getattr self "contract";
            f ← functions_ contract fn;
            tx ← transact (f rest) [("from", sender)];
            name ← getattr self "name";
            call (Call mine_tx [tx; VStr label; name] [])
          else raise_ TypeError "wrong number of positional arguments"
      end
  end.

(** [self.a(pos...)] *)
Definition invoke (self : obj) (a : string) (pos : list value) : prog value :=
  f ← getattr self a;
  match f with
  | VLambda l => apply_lambda self l pos
  | _ => raise_ TypeError "object is not callable"
  end.

Section ExternStateFeeTokenInterface.
(** The constructors of the two base classes, which live in other files
    of the package: each stores attributes on [self]. *)
Variable SafeDecimalMathInterface_init : obj → value → value → obj.
Variable OwnedInterface_init : obj → value → value → obj.

(** [ExternStateFeeTokenInterface(contract, name)]: the attributes of the
    new object, assigned in the order of the constructor body. *)
Definition ExternStateFeeTokenInterface (contract name : value) : obj :=
  let self : obj := ∅ in
  let self := SafeDecimalMathInterface_init self contract name in
  let self := OwnedInterface_init self contract name in

  let self := <["contract" := contract]> self in
  let self := <["name" := name]> self in

  let self := <["owner" := VLambda (LView "owner" 0)]> self in
  let self := <["totalSupply" := VLambda (LView "totalSupply" 0)]> self in
  let self := <["state" := VLambda (LView "state" 0)]> self in
  let self := <["name" := VLambda (LView "name" 0)]> self in
  let self := <["symbol" := VLambda (LView "symbol" 0)]> self in
  let self := <["balanceOf" := VLambda (LView "balanceOf" 1)]> self in
  let self := <["allowance" := VLambda (LView "allowance" 2)]> self in
  let self := <["transferFeeRate" := VLambda (LView "transferFeeRate" 0)]> self in
  let self := <["feePool" := VLambda (LView "feePool" 0)]> self in
  let self := <["feeAuthority" := VLambda (LView "feeAuthority" 0)]> self in

  let self := <["transferFeeIncurred" := VLambda (LView "transferFeeIncurred" 1)]> self in
  let self := <["transferPlusFee" := VLambda (LView "transferPlusFee" 1)]> self in
  let self := <["priceToSpend" := VLambda (LView "priceToSpend" 1)]> self in

  let self := <["nominateOwner" :=
                  VLambda (LMutating "nominateOwner" 1 "nominateOwner")]> self in
  let self := <["acceptOwnership" :=
                  VLambda (LMutating "acceptOwnership" 0 "acceptOwnership")]> self in
  let self := <["setTransferFeeRate" :=
                  VLambda (LMutating "setTransferFeeRate" 1 "setTransferFeeRate")]> self in
  let self := <["setFeeAuthority" :=
                  VLambda (LMutating "setFeeAuthority" 1 "setFeeAuthority")]> self in
  let self := <["setState" := VLambda (LMutating "setState" 1 "setState")]> self in
  let self := <["transfer" := VLambda (LMutating "transfer" 2 "transfer")]> self in
  let self := <["approve" := VLambda (LMutating "approve" 2 "approve")]> self in
  let self := <["transferFrom" :=
                  VLambda (LMutating "transferFrom" 3 "transferFrom")]> self in

  let self := <["withdrawFee" := VLambda (LMutating "withdrawFee" 2 "withdrawFee")]> self in
  let self := <["donateToFeePool" :=
                  VLambda (LMutating "donateToFeePool" 1 "donateToFeePool")]> self in
  self.

End ExternStateFeeTokenInterface.

(** The operations of the facade, with the number of arguments each
    takes after the sender (mutating) or in all (views). *)
Definition view_operations : list (string * nat) :=
  [("owner", 0); ("totalSupply", 0); ("state", 0); ("name", 0); ("symbol", 0);
   ("balanceOf", 1); ("allowance", 2); ("transferFeeRate", 0); ("feePool", 0);
   ("feeAuthority", 0); ("transferFeeIncurred", 1); ("transferPlusFee", 1);
   ("priceToSpend", 1)].

Definition mutating_operations : list (string * nat) :=
  [("nominateOwner", 1); ("acceptOwnership", 0); ("setTransferFeeRate", 1);
   ("setFeeAuthority", 1); ("setState", 1); ("transfer", 2); ("approve", 2);
   ("transferFrom", 3); ("withdrawFee", 2); ("donateToFeePool", 1)].

End Facade.

(* ===================================================================== *)
(** ** tests/test_TokenState.py, tests/test_ERC20FeeToken.py              *)
(* ===================================================================== *)

Module Harness.
Import Facade.

(** The test instance [self] is its attribute dictionary; it starts out
    with the attributes of its class (those [setUpClass] stored). *)





Module TestTokenState.



(** [self.tokenstate] is a TokenStateInterface, a class of another file:
    its methods are external calls. *)
Definition test_constructor (self : obj) : prog unit :=
  tokenstate ← getattr self "tokenstate";
  a ← call (Method tokenstate "owner" []);
  owner ← getattr self "owner";
  assertEqual a owner;;
  tokenstate ← getattr self "tokenstate";
  a ← call (Method tokenstate "associatedContract" []);
  associate ← getattr self "associate";
  assertEqual a associate.

End TestTokenState.

Module TestERC20FeeToken.
Section TestERC20FeeToken.
Variable MASTER : value.
Variable UNIT : Z.

(** The class-level lambdas [cls.f = lambda self, args..:
    cls.erc20feetoken.functions.f(args..)]. *)
Definition contract_function (self : obj) (fn : string) (fargs : list value) : prog value :=
  erc20feetoken ← getattr self "erc20feetoken";
  f ← functions_ erc20feetoken fn;
  mret (f fargs).

Definition test_constructor (self : obj) : prog unit :=
  f ← contract_function self "name" []; a ← call_ f;
  assertEqual a (VStr "Test Fee Token");;
  f ← contract_function self "symbol" []; a ← call_ f;
  assertEqual a (VStr "TSTFE");;
  f ← contract_function self "totalSupply" []; a ← call_ f;
  assertEqual a (VInt (1000 * UNIT));;
  f ← contract_function self "balanceOf" [MASTER]; a ← call_ f;
  assertEqual a (VInt (1000 * UNIT));;
  f ← contract_function self "transferFeeRate" []; a ← call_ f;
  assertEqual a (VInt (UNIT / 20));;
  f ← contract_function self "feeAuthority" []; a ← call_ f;
  assertEqual a MASTER.


End TestERC20FeeToken.
End TestERC20FeeToken.

End Harness.

(* ===================================================================== *)
(** ** run_tests.py                                                       *)
(* ===================================================================== *)

Module RunTests.

(** [test_suite.addTests(tests)]: the suite is the list of the tests
    added so far; the argument must be a sequence.  Its elements are
    taken to be tests, as those a loader hands back are: the refusal of
    an element that is not callable is not modelled. *)
Definition addTests (test_suite : list value) (tests : value) : exn + list value :=
  match tests with
  | VList ts | VTuple ts => inr (test_suite ++ ts)
  | _ => inl (mkExn TypeError [VStr "tests must be an iterable of tests"])
  end.

(** [getattr(tests, item)] *)
Definition getattr_tests_ (item : value) : prog value :=
  match item with
  | VStr _ => call (Call getattr_tests [item] [])
  | _ => raise_ TypeError "attribute name must be string"
  end.

(** The [for item in test_settings] loop, from the items still to visit. *)
Fixpoint load_tests (test_settings loader : value) (items : list value)
    (test_suite : list value) : prog (list value) :=
  match items with
  | [] => mret test_suite
  | item :: items =>
      enabled ← lift (py_subscript test_settings item);
      if truthy enabled then
        module ← getattr_tests_ item;
        tests ← call (Method loader "loadTestsFromModule" [module]);
        test_suite ← lift (addTests test_suite tests);
        load_tests test_settings loader items test_suite
      else
        load_tests test_settings loader items test_suite
  end.

Section Main.
(** [ganache_error_message] comes from utils.generalutils; [os.devnull]
    and [subprocess.STDOUT] from the standard library. *)
Variable ganache_error_message : value.
Variable os_devnull : value.
Variable subprocess_STDOUT : value.

(** The [__main__] block.  Its value is the argument of [sys.exit]. *)
Definition main : prog Z :=
  let num_agents := VStr "120" in
  let eth_per_agent := VStr "1000000000000" in

  _ ← call (Call print [VStr "Launching ganache..."] [("end", VStr "")]);
  DEVNULL ← call (Call py_open [os_devnull; VStr "wb"] []);
  let command := VList [VStr "ganache-cli"; VStr "-a"; num_agents;
                        VStr "-e"; eth_per_agent] in
  process ← try_except
    (call (Call Popen [command] [("stdout", DEVNULL); ("stderr", subprocess_STDOUT)]))
    is_Exception
    (λ e, Raise (mkExn Exception_ [ganache_error_message]));
  (* Wait for ganache to initialise properly. *)
  _ ← call (Call sleep [VInt 5] []);
  print_ "Done.";;

  test_settings ← call (Call load_test_settings [] []);

  let test_suite : list value := [] in
  loader ← call (Call TestLoader [] []);
  items ← lift (iterate test_settings);
  test_suite ← load_tests test_settings loader items test_suite;

  print_ ("Running test suite..." +:+ NL);;
  runner ← call (Call TextTestRunner [] [("verbosity", VInt 2)]);
  result ← call (Method runner "run" [VList test_suite]);
  _ ← call (Method process "terminate" []);
  print_ (NL +:+ "Testing complete.");;

  ok ← call (Method result "wasSuccessful" []);
  mret (if truthy ok then 0 else 1)%Z.

End Main.


(** Whether the settings enable the module named [item]. *)
Definition enabled (kvs : list (string * value)) (item : string) : bool :=
  match dict_get kvs item with
  | Some v => truthy v
  | None => false
  end.


(** The events of the loop that assembles the suite. *)
Definition is_loader_event (ev : event) : bool :=
  match ev with
  | Call getattr_tests _ _ => true
  | Method _ name _ => String.eqb name "loadTestsFromModule"
  | _ => false
  end.

End RunTests.

(* ===================================================================== *)
(** ** tests/test_Owned.py                                                *)
(* ===================================================================== *)

Module TestOwned.
Import Facade.

Section TestOwned.
(** [MASTER] and [DUMMY] are imported from utils.deployutils. *)
Variable MASTER : value.
Variable DUMMY : value.

Definition OWNED_SOURCE : string := "contracts/Owned.sol".

(** [setUpClass]: the class attributes it stores, on top of [cls]. *)
Definition setUpClass (cls : obj) : prog obj :=
  compiled ← call (Call compile_contracts [VList [VStr OWNED_SOURCE]] []);
  r ← call (Call attempt_deploy [compiled; VStr "Owned"; MASTER; VList [MASTER]] []);
  '(owned, txr) ← unpack2 r;
  mret (<["owned" := owned]> cls).

(** [self.owned.functions.fn(fargs..)] *)
Definition owned_function (self : obj) (fn : string) (fargs : list value) : prog value :=
  owned ← getattr self "owned";
  f ← functions_ owned fn;
  mret (f fargs).

Definition test_owner_is_master (self : obj) : prog unit :=
  f ← owned_function self "owner" [];
  a ← call_ f;
  assertEqual a MASTER.

Definition test_change_owner (self : obj) : prog unit :=
  f ← owned_function self "owner" [];
  old_owner ← call_ f;
  let new_owner := DUMMY in

  f ← owned_function self "setOwner" [new_owner];
  tx ← transact f [("from", MASTER)];
  _ ← call (Call mine_tx [tx] []);
  f ← owned_function self "owner" [];
  a ← call_ f;
  assertEqual a new_owner;;

  f ← owned_function self "setOwner" [old_owner];
  tx ← transact f [("from", new_owner)];
  _ ← call (Call mine_tx [tx] []);
  mret tt.


End TestOwned.
End TestOwned.

(* ===================================================================== *)
(** ** Further vocabulary for stating properties                          *)
(* ===================================================================== *)

Module Vocabulary.

(** In the trace [tr] the deployment step of artifact [name] succeeded
    and handed back the pair of [instance] and [receipt]. *)
Definition deployed (tr : list entry) (name : string) (instance receipt : value) : Prop :=
  ∃ j compiled sender ctor r,
    tr !! j = Some (Call attempt_deploy [compiled; VStr name; sender; VList ctor] [], inr r) ∧
    py_iter r = Some [instance; receipt].

(** The wiring the source performs after deployment: the function
    called, the artifact it is called on, the artifact whose address is
    its argument. *)
Definition links : list (string * string * string) :=
  [("setNomin", "Havven", "EtherNomin");
   ("setEscrow", "Havven", "HavvenEscrow");
   ("setCourt", "EtherNomin", "Court")].

(** The positional arguments of the [print] calls of a trace that returned. *)
Definition printed (tr : list entry) : list (list value) :=
  omap (λ en : entry,
          match en with
          | (Call print pos _, inr _) => Some pos
          | _ => None
          end) tr.

(** The attributes the facade constructor assigns. *)
Definition assigned_attributes : list string :=
  "contract" :: (Facade.view_operations ++ Facade.mutating_operations).*1.


(** How a revert assertion [helper] around the operation [op] ends when
    it does not pass: the operation returned, raised an exception of
    another class than [ValueError], or raised a [ValueError] without
    the revert signal. *)
Definition failure_modes (b : backend) (w : world b)
    (op : prog value) (helper : prog unit) : Prop :=
  (∀ v, result (exec b op w) = inr v →
        result (exec b helper w) = inl (failure "exception not raised")) ∧
  (∀ e, result (exec b op w) = inl e → exn_class_of e ≠ ValueError →
        result (exec b helper w) = inl e) ∧
  (∀ e, result (exec b op w) = inl e → exn_class_of e = ValueError →
        ¬ TestUtils.revert_signal e →
        ∃ e', result (exec b helper w) = inl e' ∧
              exn_class_of e' ∈ [AssertionError; IndexError; KeyError; TypeError]).

End Vocabulary.

(* ===================================================================== *)
(** ** Concrete backends                                                  *)
(* ===================================================================== *)

(** Scripted backends on which the programs are evaluated. *)
Module Scenarios.

Definition MASTER : value := VStr "0xMASTER".
Definition UNIT : Z := 10 ^ 18.

Definition receipt (status : Z) (addr : string) : value :=
  VDict [("status", VInt status); ("contractAddress", VStr addr)].

(** A chain that deploys the artifact [name] at address [pfx ++ name],
    answers every submission of [c.functions.fn(..)] with the
    transaction hash "tx:fn", and raises [e] on the events for which
    [fail_on] says so.  It has no state of its own. *)
Definition chain_handle (pfx : string) (fail_on : event → option exn)
    (ev : event) (w : unit) : outcome * unit :=
  match fail_on ev with
  | Some e => (inl e, w)
  | None =>
      match ev with
      | Call attempt_deploy [_; VStr name; _; _] _ =>
          (inr (VTuple [VContract (pfx +:+ name); receipt 1 (pfx +:+ name)]), w)
      | Method (VContractFunction _ fn _) "transact" _ =>
          (inr (VStr ("tx:" +:+ fn)), w)
      | _ => (inr VNone, w)
      end
  end.

Definition chain (pfx : string) (fail_on : event → option exn) : backend :=
  mkBackend unit (chain_handle pfx fail_on).

Definition never : event → option exn := λ _, None.

(** The deployment of one named artifact is rejected. *)
Definition DeploymentFailure : exn :=
  mkExn (OtherError "DeploymentFailure") [VStr "EtherNomin"].

Definition deploy_fails (name : string) : event → option exn := λ ev,
  match ev with
  | Call attempt_deploy [_; VStr n; _; _] _ =>
      if String.eqb n name then Some DeploymentFailure else None
  | _ => None
  end.

(** A chain on which every deployment is mined with a receipt that
    signals failure (status 0), the deployment helper handing the pair
    back all the same. *)
Definition failed_receipts_handle (ev : event) (w : unit) : outcome * unit :=
  match ev with
  | Call attempt_deploy [_; VStr name; _; _] _ =>
      (inr (VTuple [VContract ("0x" +:+ name); receipt 0 ("0x" +:+ name)]), w)
  | Method (VContractFunction _ fn _) "transact" _ =>
      (inr (VStr ("tx:" +:+ fn)), w)
  | _ => (inr VNone, w)
  end.

Definition failed_receipts_chain : backend := mkBackend unit failed_receipts_handle.



(** ganache's answer to an operation that the contract reverts, and its
    answer to one that runs out of gas. *)
Definition revert_error : exn :=
  mkExn ValueError
    [VDict [("message", VStr "VM Exception while processing transaction: revert");
            ("code", VInt (-32000))]].

Definition out_of_gas_error : exn :=
  mkExn ValueError
    [VDict [("message", VStr "VM Exception while processing transaction: out of gas");
            ("code", VInt (-32000))]].

Definition view_call_fails (e : exn) : event → option exn := λ ev,
  match ev with
  | Method _ "call" _ => Some e
  | _ => None
  end.

Definition mining_fails (e : exn) : event → option exn := λ ev,
  match ev with
  | Call mine_tx _ _ => Some e
  | _ => None
  end.

(** A base-class constructor that keeps the contract and the label. *)
Definition base_init : gmap string value → value → value → gmap string value :=
  λ self contract name, <["label" := name]> (<["contract" := contract]> self).

Definition fee_token : gmap string value :=
  Facade.ExternStateFeeTokenInterface base_init base_init
    (VContract "0xFeeToken") (VStr "ExternStateFeeToken").





(** A machine on which ganache starts, the settings enable test_Owned
    and disable test_TokenState, every module holds two tests, and the
    runner reports what [verdict] says. *)
Definition test_settings : list (string * value) :=
  [("test_Owned", VBool true); ("test_TokenState", VBool false)].

Definition machine_handle (verdict : value) (ev : event) (w : unit) : outcome * unit :=
  match ev with
  | Call load_test_settings _ _ => (inr (VDict test_settings), w)
  | Call TestLoader _ _ => (inr (VObject 10), w)
  | Call getattr_tests [VStr item] _ => (inr (VStr ("module " +:+ item)), w)
  | Method (VObject 10) "loadTestsFromModule" [VStr m] =>
      (inr (VList [VStr (m +:+ ": first test"); VStr (m +:+ ": second test")]), w)
  | Call TextTestRunner _ _ => (inr (VObject 11), w)
  | Method (VObject 11) "run" _ => (inr (VObject 12), w)
  | Method (VObject 12) "wasSuccessful" _ => (inr verdict, w)
  | _ => (inr VNone, w)
  end.

Definition machine (verdict : value) : backend := mkBackend unit (machine_handle verdict).

Definition run_tests_main : prog Z :=
  RunTests.main (VStr "ganache-cli could not be launched") (VStr "/dev/null") (VInt (-2)).

(** An Owned contract whose owner is the state of the chain: [owner()]
    reads it, [setOwner(a)] sent by the owner stores [a] and is reverted
    for anybody else. *)
Definition owned_chain_handle (ev : event) (owner : string) : outcome * string :=
  match ev with
  | Method (VContractFunction _ "owner" _) "call" _ => (inr (VStr owner), owner)
  | Method (VContractFunction _ "setOwner" [VStr new]) "transact"
      [VDict (("from", VStr sender) :: _)] =>
      if String.eqb sender owner
      then (inr (VStr "tx:setOwner"), new)
      else (inl revert_error, owner)
  | _ => (inr VNone, owner)
  end.

Definition owned_chain : backend := mkBackend string owned_chain_handle.

Definition owned_test_instance : gmap string value :=
  {[ "owned" := VContract "0xOwned" ]}.

(** A machine without ganache-cli: [Popen] raises. *)
Definition FileNotFoundError : exn :=
  mkExn (OtherError "FileNotFoundError") [VStr "ganache-cli"].

Definition launch_fails : event → option exn := λ ev,
  match ev with
  | Call Popen _ _ => Some FileNotFoundError
  | _ => None
  end.





(** The operator interrupts the launch: [Popen] raises
    [KeyboardInterrupt], which does not derive from [Exception]. *)
Definition KeyboardInterrupt : exn := mkExn (OtherError "KeyboardInterrupt") [].

Definition launch_interrupted : event → option exn := λ ev,
  match ev with
  | Call Popen _ _ => Some KeyboardInterrupt
  | _ => None
  end.

(** A chain whose deployment helper hands back the bare instance
    instead of the pair of instance and receipt. *)
Definition bare_instance_handle (ev : event) (w : unit) : outcome * unit :=
  match ev with
  | Call attempt_deploy [_; VStr name; _; _] _ => (inr (VContract ("0x" +:+ name)), w)
  | _ => (inr VNone, w)
  end.

Definition bare_instance_chain : backend := mkBackend unit bare_instance_handle.

End Scenarios.
(* ===================================================================== *)
(** * Properties                                                          *)
(* ===================================================================== *)

(** ** Runs of programs *)

Section Runs.
Context {A B : Type}.
Implicit Types (b : backend).

Lemma exec_bind_fix b (p : prog A) (f : A → prog B) (w : world b) :
  exec b (bind p f) w =
    let r := exec b p w in
    match result r with
    | inl e => mkRun (trace r) (inl e) (final r)
    | inr a => let r' := exec b (f a) (final r) in
               mkRun (trace r ++ trace r') (result r') (final r')
    end.
Proof.
  revert w. induction p as [a|e|ev k IH]; intros w; cbn.
  - by destruct (exec b (f a) w).
  - done.
  - destruct (handle b ev w) as [o w'].
    rewrite IH. unfold log. cbn. by destruct (result (exec b (k o) w')).
Qed.

Lemma exec_bind b (p : prog A) (f : A → prog B) (w : world b) :
  exec b (p ≫= f) w =
    let r := exec b p w in
    match result r with
    | inl e => mkRun (trace r) (inl e) (final r)
    | inr a => let r' := exec b (f a) (final r) in
               mkRun (trace r ++ trace r') (result r') (final r')
    end.
Proof. apply exec_bind_fix. Qed.
End Runs.

Lemma trace_log {R W} en (r : run_result R W) : trace (log en r) = en :: trace r.
Proof. done. Qed.

Lemma result_log {R W} en (r : run_result R W) : result (log en r) = result r.
Proof. done. Qed.

Lemma final_log {R W} en (r : run_result R W) : final (log en r) = final r.
Proof. done. Qed.

Lemma if_Raise {R} (c : bool) (a b : exn) :
  (if c then Raise a else Raise b : prog R) = Raise (if c then a else b).
Proof. by destruct c. Qed.

Ltac run_simpl :=
  repeat (progress (cbn; rewrite ?trace_log, ?result_log, ?final_log)).

(** A program without a handler on its path: whatever an external call
    raises is what the program raises. *)
Inductive uncaught {R} : prog R → Prop :=
  | uncaught_Ret r : uncaught (Ret r)
  | uncaught_Raise e : uncaught (Raise e)
  | uncaught_Vis ev k :
      (∀ e, k (inl e) = Raise e) →
      (∀ v, uncaught (k (inr v))) →
      uncaught (Vis ev k).

Create HintDb uncaught discriminated.
#[export] Hint Constructors uncaught : uncaught.

Lemma uncaught_bind {A B} (p : prog A) (f : A → prog B) :
  uncaught p → (∀ a, uncaught (f a)) → uncaught (p ≫= f).
Proof.
  intros Hp Hf. induction Hp as [a|e|ev k Hk _ IH]; cbn; auto with uncaught.
  constructor.
  - intros e. by rewrite Hk.
  - apply IH.
Qed.

Lemma uncaught_call ev : uncaught (call ev).
Proof. constructor; auto with uncaught. Qed.

Lemma uncaught_unpack2 v : uncaught (unpack2 v).
Proof.
  unfold unpack2, raise_. destruct (py_iter v) as [[|a [|b [|c l]]]|];
    auto with uncaught.
Qed.

Lemma uncaught_get_address v : uncaught (get_address v).
Proof. destruct v; cbn; unfold raise_; auto with uncaught. Qed.

Lemma uncaught_functions_ v fn : uncaught (functions_ v fn).
Proof. destruct v; cbn; unfold raise_; auto with uncaught. Qed.

Lemma uncaught_transact f params : uncaught (transact f params).
Proof. apply uncaught_call. Qed.

Lemma uncaught_call_ f : uncaught (call_ f).
Proof. apply uncaught_call. Qed.

Lemma uncaught_print_ s : uncaught (print_ s).
Proof. apply uncaught_bind; auto using uncaught_call with uncaught. Qed.

Lemma uncaught_mret {R} (r : R) : uncaught (mret r).
Proof. constructor. Qed.

#[export] Hint Resolve uncaught_bind uncaught_call uncaught_unpack2
  uncaught_get_address uncaught_functions_ uncaught_transact uncaught_call_
  uncaught_print_ uncaught_mret : uncaught.

(** In a run of such a program a failed call is the last event, and its
    exception is the result of the run. *)
Lemma uncaught_failed_call_is_last {R} (p : prog R) b (w : world b) pre ev e post :
  uncaught p →
  trace (exec b p w) = pre ++ (ev, inl e) :: post →
  post = [] ∧ result (exec b p w) = inl e.
Proof.
  intros Hp. revert w pre.
  induction Hp as [r|e'|ev' k Hk _ IH]; intros w pre; cbn.
  - by destruct pre.
  - by destruct pre.
  - destruct (handle b ev' w) as [o w'] eqn:Hh. unfold log. cbn.
    destruct pre as [|en pre]; cbn; intros Htr.
    + injection Htr as -> -> <-. rewrite Hk. done.
    + injection Htr as _ Htr. destruct o as [e'|v].
      * rewrite Hk in Htr. cbn in Htr. by destruct pre.
      * by apply IH in Htr.
Qed.



(* ===================================================================== *)
(** ** deploy.py                                                          *)
(* ===================================================================== *)

Lemma unpack2_cases v :
  (∃ a c, py_iter v = Some [a; c] ∧ unpack2 v = Ret (a, c)) ∨
  (∃ e, unpack2 v = Raise e).
Proof.
  unfold unpack2, raise_. destruct (py_iter v) as [[|a [|c [|d l]]]|]; eauto.
Qed.

Lemma get_address_cases v :
  (∃ a, v = VContract a ∧ get_address v = Ret (VStr a)) ∨
  (∃ e, get_address v = Raise e).
Proof. destruct v; cbn; unfold raise_; eauto. Qed.

(** One step of a run against an arbitrary backend: split on what the
    backend answers, or on whether a Python operation raises. *)
Ltac run_step :=
  first
    [ match goal with
      | |- context [handle ?b ?ev ?w] =>
          let w' := fresh "w" in
          destruct (handle b ev w) as [[?|?] w']
      end
    | match goal with
      | |- context [unpack2 ?v] =>
          let H := fresh "Hit" in
          destruct (unpack2_cases v) as [(?&?&H&->)|(?&->)]
      end
    | match goal with
      | |- context [get_address ?v] =>
          destruct (get_address_cases v) as [(?&->&_)|(?&->)]
      end ];
  cbn; rewrite ?trace_log, ?result_log.

Ltac uncaught_tac :=
  repeat first
    [ progress intros
    | match goal with
      | |- uncaught (mbind _ _) => apply uncaught_bind
      | |- uncaught (let '(_, _) := ?x in _) => destruct x
      end ];
  auto with uncaught.

Module DeployFacts.
Section DeployFacts.
Variable MASTER : value.
Variable UNIT : Z.
Abbreviation deploy_havven := (Deploy.deploy_havven MASTER UNIT).
Abbreviation deploy_event := (Deploy.deploy_event MASTER).
Abbreviation mine_event := Deploy.mine_event.

Lemma uncaught_deploy_havven pa : uncaught (deploy_havven pa).
Proof. unfold Deploy.deploy_havven. destruct pa; uncaught_tac. Qed.

Ltac lookup_cases H k :=
  unfold Deploy.deploy_event, Deploy.mine_event in *;
  repeat (destruct k as [|k]; cbn in H; try discriminate H);
  simplify_eq.

Ltac run_all close :=
  repeat (run_step;
          try (lazymatch goal with
               | |- context [exec _ _ _] => fail
               | |- _ => solve [close]
               end)).

Ltac elem_cases :=
  repeat match goal with
    | H : _ ∈ _ :: _ |- _ => apply elem_of_cons in H as [->|H]
    | H : _ ∈ [] |- _ => by apply elem_of_nil in H
    end.

Lemma deploy_names_prefix b (w : world b) pa :
  omap Deploy.deployed_name (trace (exec b (deploy_havven pa) w))
    `prefix_of` Deploy.plan.
Proof.
  unfold Deploy.deploy_havven, Deploy.plan. destruct pa; cbn;
    run_all ltac:(repeat first [apply prefix_nil | apply prefix_cons]).
Qed.

Lemma deploy_dependencies b (w : world b) pa k compiled name ctor o dep :
  trace (exec b (deploy_havven pa) w) !! k
    = Some (deploy_event compiled name ctor, o) →
  dep ∈ Deploy.depends_on name →
  ∃ j ctor' r a rc,
    j < k ∧
    trace (exec b (deploy_havven pa) w) !! j
      = Some (deploy_event compiled dep ctor', inr r) ∧
    py_iter r = Some [VContract a; rc] ∧
    VStr a ∈ ctor.
Proof.
  revert k. unfold Deploy.deploy_havven. destruct pa; cbn;
    run_all ltac:(
      intros k Hk Hdep; lookup_cases Hk k; cbn in Hdep; elem_cases;
      first [ exists 2; do 4 eexists; split_and!;
                [lia|reflexivity|eassumption|set_solver]
            | exists 3; do 4 eexists; split_and!;
                [lia|reflexivity|eassumption|set_solver] ]).
Qed.


(** One step of a run, keeping what is learnt about the values. *)
Ltac run_step_keep :=
  first
    [ match goal with
      | |- context [handle ?b ?ev ?w] =>
          let w' := fresh "w" in
          destruct (handle b ev w) as [[?|?] w']
      end
    | match goal with
      | |- context [unpack2 ?v] =>
          let H := fresh "Hu" in
          destruct (unpack2_cases v) as [(?&?&_&H)|(?&H)]; rewrite H
      end
    | match goal with
      | |- context [get_address ?v] =>
          let H := fresh "Hg" in
          destruct (get_address_cases v) as [(?&->&_)|(?&H)]; [|rewrite H]
      end
    | match goal with
      | |- context [if ?c then _ else _] => is_var c; destruct c
      end ];
  cbn; rewrite ?trace_log, ?result_log.

(** A deployment step that handed back a pair of a contract instance and
    a receipt is followed by the next step, whatever the receipt is. *)
Lemma returned_step_goes_on b (w : world b) pa k compiled name ctor v inst rc :
  trace (exec b (deploy_havven pa) w) !! k
    = Some (deploy_event compiled name ctor, inr v) →
  py_iter v = Some [VContract inst; rc] →
  ∃ en, trace (exec b (deploy_havven pa) w) !! S k = Some en ∧
        Deploy.pipeline_goes_on name en.
Proof.
  revert k. unfold Deploy.deploy_havven, Deploy.pipeline_goes_on. cbn.
  repeat (run_step_keep;
          try (lazymatch goal with
               | |- context [exec _ _ _] => fail
               | |- _ =>
                   solve [ intros k Hk Hv; lookup_cases Hk k;
                           first
                             [ eexists; split; [reflexivity|];
                               first [exists 0; by split | exists 1; by split
                                     | exists 2; by split | exists 3; by split]
                             | exfalso; unfold unpack2 in *; rewrite Hv in *;
                               simplify_eq; cbn in *; congruence ] ]
               end)).
Qed.

(** What the caller receives after a failed deployment step does not
    determine the instances deployed before it: two runs that deploy
    Havven at different addresses and then fail on EtherNomin hand the
    caller the same exception. *)
Lemma failure_tells_no_instances :
  ¬ ∃ diag : exn → list value,
      ∀ (b : backend) (w : world b) e,
        let r := exec b (Deploy.deploy_havven Scenarios.MASTER Scenarios.UNIT false) w in
        result r = inl e →
        Deploy.deploy_step_failed (trace r) e →
        diag e = Deploy.deployed_instances (trace r).
Proof.
  intros [diag Hdiag].
  assert (Hfail : ∀ pfx,
    Deploy.deploy_step_failed
      (trace (exec (Scenarios.chain pfx (Scenarios.deploy_fails "EtherNomin"))
                (Deploy.deploy_havven Scenarios.MASTER Scenarios.UNIT false) tt))
      Scenarios.DeploymentFailure).
  { intros pfx. eexists. split; [reflexivity|]. split; [by eexists|done]. }
  pose proof (Hdiag (Scenarios.chain "0xA" (Scenarios.deploy_fails "EtherNomin")) tt
                Scenarios.DeploymentFailure eq_refl (Hfail _)) as HA.
  pose proof (Hdiag (Scenarios.chain "0xB" (Scenarios.deploy_fails "EtherNomin")) tt
                Scenarios.DeploymentFailure eq_refl (Hfail _)) as HB.
  vm_compute in HA, HB. congruence.
Qed.

End DeployFacts.
End DeployFacts.

Module DeployProperties.
Import Scenarios.
Abbreviation deploy_havven := Deploy.deploy_havven.
Abbreviation deploy_event := Deploy.deploy_event.
Abbreviation mine_event := Deploy.mine_event.

(** C1, evaluated on a chain where every step succeeds: the four
    artifacts are deployed, but the tuple [deploy_havven] returns holds
    only the Havven, EtherNomin and Court instances and their receipts;
    the HavvenEscrow instance and its receipt are not in it. *)
Lemma deploy_havven_return_omits_escrow :
  let r := exec (chain "0x" never) (deploy_havven MASTER UNIT false) tt in
  Deploy.deployed_instances (trace r)
    = [VContract "0xHavven"; VContract "0xEtherNomin";
       VContract "0xCourt"; VContract "0xHavvenEscrow"] ∧
  ∃ returned,
    result r = inr (VTuple returned) ∧
    returned = [VContract "0xHavven"; VContract "0xEtherNomin"; VContract "0xCourt";
                receipt 1 "0xHavven"; receipt 1 "0xEtherNomin"; receipt 1 "0xCourt"] ∧
    (VContract "0xHavvenEscrow" ∉ returned) ∧
    (receipt 1 "0xHavvenEscrow" ∉ returned).
Proof.
  split; [by vm_compute|]. eexists. split; [by vm_compute|].
  split; [done|]. split; intros Hin; repeat (apply elem_of_cons in Hin as [Hin|Hin]; [done|]);
    by apply elem_of_nil in Hin.
Qed.

(** C6: for every backend, the deployment steps of a run are issued in
    the order Havven, EtherNomin, Court, HavvenEscrow (the names
    deployed form a prefix of that plan), and when a step whose
    constructor arguments mention the address of an earlier artifact is
    issued, that artifact's deployment has already returned its instance
    and the address in the arguments is that instance's address. *)
Theorem deploy_steps_in_declared_order MASTER UNIT b (w : world b) pa :
  let tr := trace (exec b (deploy_havven MASTER UNIT pa) w) in
  omap Deploy.deployed_name tr `prefix_of` Deploy.plan ∧
  ∀ k compiled name ctor o dep,
    tr !! k = Some (deploy_event MASTER compiled name ctor, o) →
    dep ∈ Deploy.depends_on name →
    ∃ j ctor' r a rc,
      j < k ∧
      tr !! j = Some (deploy_event MASTER compiled dep ctor', inr r) ∧
      py_iter r = Some [VContract a; rc] ∧
      VStr a ∈ ctor.
Proof.
  split.
  - apply DeployFacts.deploy_names_prefix.
  - intros k compiled name ctor o dep. apply DeployFacts.deploy_dependencies.
Qed.

Lemma deploy_steps_in_declared_order_witness :
  ∃ j ctor' r a rc,
    j < 4 ∧
    trace (exec (chain "0x" never) (deploy_havven MASTER UNIT false) tt) !! j
      = Some (deploy_event MASTER VNone "EtherNomin" ctor', inr r) ∧
    py_iter r = Some [VContract a; rc] ∧
    VStr a ∈ [VStr "0xHavven"; VStr "0xEtherNomin"; MASTER].
Proof.
  apply (proj2 (deploy_steps_in_declared_order MASTER UNIT (chain "0x" never) tt false)
           4 VNone "Court" [VStr "0xHavven"; VStr "0xEtherNomin"; MASTER]
           (inr (VTuple [VContract "0xCourt"; receipt 1 "0xCourt"])) "EtherNomin").
  - reflexivity.
  - vm_compute. apply list_elem_of_further, list_elem_of_here.
Defined.

(** C4, as amended: [deploy_havven] never reads the receipts its
    deployment steps hand back, so a step fails only by its
    [attempt_deploy] call raising.  For every backend: when that call
    raises, it is the last event of the run (no later deployment step,
    and no link operation, is attempted) and [deploy_havven] raises the
    very same exception to its caller; when that call returns a pair of
    a contract instance and a receipt, the pipeline goes on with the
    next step whatever the receipt says, also when it signals failure. *)
Theorem deploy_failure_stops_pipeline MASTER UNIT b (w : world b) pa :
  let r := exec b (deploy_havven MASTER UNIT pa) w in
  (∀ pre compiled name ctor e post,
     trace r = pre ++ (deploy_event MASTER compiled name ctor, inl e) :: post →
     post = [] ∧ result r = inl e) ∧
  (∀ k compiled name ctor v inst rc,
     trace r !! k = Some (deploy_event MASTER compiled name ctor, inr v) →
     py_iter v = Some [VContract inst; rc] →
     ∃ en, trace r !! S k = Some en ∧ Deploy.pipeline_goes_on name en).
Proof.
  split.
  - intros pre compiled name ctor e post.
    apply uncaught_failed_call_is_last, DeployFacts.uncaught_deploy_havven.
  - intros k compiled name ctor v inst rc.
    apply DeployFacts.returned_step_goes_on.
Qed.

Lemma deploy_failure_stops_pipeline_witness :
  (@nil entry = [] ∧
   result (exec (chain "0x" (deploy_fails "EtherNomin"))
             (deploy_havven MASTER UNIT false) tt) = inl DeploymentFailure) ∧
  (Deploy.receipt_signals_failure (receipt 0 "0xHavven") ∧
   ∃ en, trace (exec failed_receipts_chain (deploy_havven MASTER UNIT false) tt) !! 3
           = Some en ∧
         Deploy.pipeline_goes_on "Havven" en).
Proof.
  split; [|split; [reflexivity|]].
  - apply (proj1 (deploy_failure_stops_pipeline MASTER UNIT
                    (chain "0x" (deploy_fails "EtherNomin")) tt false)
             (take 3 (trace (exec (chain "0x" (deploy_fails "EtherNomin"))
                               (deploy_havven MASTER UNIT false) tt)))
             VNone "EtherNomin"
             [VStr "0xHavven"; MASTER; MASTER; VInt (1000 * UNIT); MASTER]).
    vm_compute. reflexivity.
  - apply (proj2 (deploy_failure_stops_pipeline MASTER UNIT failed_receipts_chain tt false)
             2 VNone "Havven" [MASTER]
             (VTuple [VContract "0xHavven"; receipt 0 "0xHavven"])
             "0xHavven" (receipt 0 "0xHavven")).
    + vm_compute. reflexivity.
    + reflexivity.
Defined.

(** C4, as stated, fails on both counts.  A deployment step whose
    receipt signals failure does not stop the pipeline: on a chain where
    every deployment receipt has status 0, the Havven step hands back
    such a receipt and still the three later steps are attempted, the
    three links are submitted and [deploy_havven] returns.  And after a
    deployment step that does stop the run (by raising), what the caller
    receives does not determine the instances deployed before it. *)
Lemma deploy_failure_counterexample :
  (let r := exec failed_receipts_chain (deploy_havven MASTER UNIT false) tt in
   (∃ inst rc,
      trace r !! 2 = Some (deploy_event MASTER VNone "Havven" [MASTER],
                           inr (VTuple [inst; rc])) ∧
      Deploy.receipt_signals_failure rc) ∧
   omap Deploy.deployed_name (trace r) = Deploy.plan ∧
   length (filter (λ en : entry, Deploy.is_link_submission en) (trace r)) = 3 ∧
   ∃ ret, result r = inr ret) ∧
  ¬ ∃ diag : exn → list value,
      ∀ (b : backend) (w : world b) e,
        let r := exec b (deploy_havven MASTER UNIT false) w in
        result r = inl e →
        Deploy.deploy_step_failed (trace r) e →
        diag e = Deploy.deployed_instances (trace r).
Proof.
  split; [|apply DeployFacts.failure_tells_no_instances].
  split_and!.
  - by eexists _, _.
  - by vm_compute.
  - by vm_compute.
  - by eexists.
Qed.




End DeployProperties.

(* ===================================================================== *)
(** ** tests/test_utils.py                                                *)
(* ===================================================================== *)

Lemma exec_catch {R} b (p : prog R) (w : world b) :
  exec b (catch p) w
  = mkRun (trace (exec b p w)) (inr (result (exec b p w))) (final (exec b p w)).
Proof.
  unfold catch. revert w. induction p as [r|e|ev k IH]; intros w; cbn; try done.
  destruct (handle b ev w) as [o w']. unfold mbind, prog_bind in IH.
  by rewrite IH.
Qed.

Module TestUtilsFacts.
Import TestUtils.

(** The assertions both helpers make once the exception is caught. *)
Abbreviation revert_checks error_exception :=
  (payload ← lift (first_arg error_exception);
   message ← lift (py_getitem payload "message");
   found ← lift (py_contains "revert" message);
   assertTrue found;;
   payload ← lift (first_arg error_exception);
   code ← lift (py_getitem payload "code");
   assertEqual (VInt (-32000)) code).

Lemma revert_checks_pass b (w : world b) e :
  result (exec b (revert_checks e) w) = inr tt ↔
  ∃ payload message code,
    first_arg e = inr payload ∧
    py_getitem payload "message" = inr message ∧
    py_contains "revert" message = inr true ∧
    py_getitem payload "code" = inr code ∧
    py_eq (VInt (-32000)) code = true.
Proof.
  destruct (first_arg e) as [e1|payload] eqn:H1; cbn -[py_getitem py_contains first_arg py_eq].
  { split; [done|]. by intros (?&?&?&?&_). }
  destruct (py_getitem payload "message") as [e2|message] eqn:H2; cbn -[py_getitem py_contains first_arg py_eq].
  { split; [done|]. intros (?&?&?&?&?&_). congruence. }
  destruct (py_contains "revert" message) as [e3|[|]] eqn:H3; cbn -[py_getitem py_contains first_arg py_eq].
  { split; [done|]. intros (?&?&?&?&?&?&_). congruence. }
  2:{ split; [done|]. intros (?&?&?&?&?&?&_). congruence. }
  destruct (py_getitem payload "code") as [e4|code] eqn:H4; cbn -[py_getitem py_contains first_arg py_eq].
  { split; [done|]. intros (?&?&?&?&?&?&?&_). congruence. }
  unfold assertEqual.
  destruct (py_eq (VInt (-32000)) code) eqn:H5; cbn -[py_getitem py_contains first_arg py_eq].
  - split; [|done]. intros _. by exists payload, message, code.
  - split; [done|]. intros (?&?&?&?&?&?&?&?). congruence.
Qed.

(** An operation wrapped in [assertRaises(ValueError)] and followed by the
    two checks passes exactly when it raised the revert signal. *)
Lemma asserted_operation_passes b (w : world b) (body : prog value) :
  result (exec b (assertRaises ValueError body ≫= λ e, revert_checks e) w) = inr tt ↔
  ∃ e, result (exec b body w) = inl e ∧ revert_signal e.
Proof.
  unfold assertRaises. rewrite !exec_bind, exec_catch. cbn.
  destruct (result (exec b body w)) as [e|v] eqn:Hbody; cbn.
  - destruct (decide (exn_class_of e = ValueError)) as [Hcls|Hcls]; cbn.
    + rewrite revert_checks_pass. split.
      * intros Hsig. exists e. by split.
      * intros (e' & [= <-] & _ & Hsig). done.
    + split; [done|]. intros (e' & [= <-] & Hcls' & _). done.
  - split; [done|]. by intros (e & ? & _).
Qed.

End TestUtilsFacts.

Module TestUtilsProperties.
Import TestUtils Scenarios.

(** C5: under every backend, [assertCallReverts] passes exactly when the
    view call raised an exception carrying the revert signal (a
    [ValueError] whose error object has code -32000 and a message
    containing "revert"), and [assertTransactionReverts] passes exactly
    when submitting and mining the transaction raised such an exception.
    Any other ending of the operation (success, an error of another
    class, an error object with another code or message) is not
    accepted as a rejection. *)
Theorem revert_assertions_accept_only_revert_signal
    b (w : world b) testcase function caller gas :
  (result (exec b (assertCallReverts testcase function) w) = inr tt ↔
   ∃ e, result (exec b (call_ function) w) = inl e ∧ revert_signal e) ∧
  (result (exec b (assertTransactionReverts testcase function caller gas) w) = inr tt ↔
   ∃ e, result (exec b (tx ← transact function [("from", caller); ("gas", gas)];
                        call (Call mine_tx [tx] [])) w) = inl e ∧
        revert_signal e).
Proof.
  split; apply TestUtilsFacts.asserted_operation_passes.
Qed.

Lemma revert_assertions_accept_only_revert_signal_witness :
  result (exec (chain "0x" (view_call_fails revert_error))
            (assertCallReverts VNone (VContractFunction (VContract "0xOwned") "owner" []))
            tt) = inr tt.
Proof.
  apply (proj1 (revert_assertions_accept_only_revert_signal
                  (chain "0x" (view_call_fails revert_error)) tt VNone
                  (VContractFunction (VContract "0xOwned") "owner" []) VNone VNone)).
  exists revert_error. split; [reflexivity|].
  split; [reflexivity|].
  eexists _, _, _. repeat split; reflexivity.
Defined.

End TestUtilsProperties.

(* ===================================================================== *)
(** ** tests/contract_interfaces/extern_state_fee_token_interface.py      *)
(* ===================================================================== *)

Module FacadeFacts.
Import Facade.

Section FacadeFacts.
Variable SafeDecimalMathInterface_init : obj → value → value → obj.
Variable OwnedInterface_init : obj → value → value → obj.
Variable address : string.
Variable name : value.

Abbreviation facade :=
  (ExternStateFeeTokenInterface SafeDecimalMathInterface_init OwnedInterface_init
     (VContract address) name).

Ltac attr := unfold ExternStateFeeTokenInterface; cbv zeta;
  rewrite ?lookup_insert_ne by done; apply lookup_insert_eq.

Lemma facade_contract : facade !! "contract" = Some (VContract address).
Proof. attr. Qed.

Lemma facade_name : facade !! "name" = Some (VLambda (LView "name" 0)).
Proof. attr. Qed.

Lemma facade_view fn n :
  (fn, n) ∈ view_operations → facade !! fn = Some (VLambda (LView fn n)).
Proof.
  unfold view_operations. intros H.
  repeat (apply elem_of_cons in H as [[= -> ->]|H]; [attr|]).
  by apply elem_of_nil in H.
Qed.

Lemma facade_mutating fn n :
  (fn, n) ∈ mutating_operations → facade !! fn = Some (VLambda (LMutating fn n fn)).
Proof.
  unfold mutating_operations. intros H.
  repeat (apply elem_of_cons in H as [[= -> ->]|H]; [attr|]).
  by apply elem_of_nil in H.
Qed.

Lemma invoke_view fn n pos :
  (fn, n) ∈ view_operations → length pos = n →
  invoke facade fn pos = call_ (VContractFunction (VContract address) fn pos).
Proof.
  intros Hin Hlen. unfold invoke, getattr. rewrite (facade_view _ _ Hin). cbn.
  rewrite decide_True by done. unfold getattr. by rewrite facade_contract.
Qed.

Lemma invoke_mutating fn n sender rest :
  (fn, n) ∈ mutating_operations → length rest = n →
  invoke facade fn (sender :: rest)
  = (tx ← transact (VContractFunction (VContract address) fn rest) [("from", sender)];
     call (Call mine_tx [tx; VStr fn; VLambda (LView "name" 0)] [])).
Proof.
  intros Hin Hlen. unfold invoke, getattr. rewrite (facade_mutating _ _ Hin). cbn.
  rewrite decide_True by done. unfold getattr. rewrite facade_contract, facade_name. done.
Qed.

Lemma invoke_mutating_bad_arity fn n pos :
  (fn, n) ∈ mutating_operations → length pos ≠ S n →
  ∃ e, invoke facade fn pos = Raise e ∧ exn_class_of e = TypeError.
Proof.
  intros Hin Hlen. unfold invoke, getattr. rewrite (facade_mutating _ _ Hin). cbn.
  destruct pos as [|sender rest]; [by eexists|].
  rewrite decide_False by (cbn in Hlen; lia). by eexists.
Qed.

(** Every call to [mine_tx] a mutating operation makes carries the
    operation's name and the [name] lambda. *)
Lemma mutating_mine_tx_arguments b (w : world b) fn n sender rest k margs kw o :
  (fn, n) ∈ mutating_operations → length rest = n →
  trace (exec b (invoke facade fn (sender :: rest)) w) !! k
    = Some (Call mine_tx margs kw, o) →
  ∃ tx, margs = [tx; VStr fn; VLambda (LView "name" 0)].
Proof.
  intros Hin Hlen. rewrite (invoke_mutating _ _ _ _ Hin Hlen). cbn.
  destruct (handle b _ w) as [[e|tx] w1]; cbn; rewrite trace_log.
  - destruct k as [|[|k]]; cbn; intros [=].
  - destruct (handle b _ w1) as [[e|r] w2]; cbn; rewrite trace_log;
      destruct k as [|[|[|k]]]; cbn; intros [=]; subst; by eexists.
Qed.

End FacadeFacts.
End FacadeFacts.

Module FacadeProperties.
Import Facade Scenarios.

(** C7: on an object built by the constructor around a contract, every
    view operation, called with its arguments and no sender, is the
    read-only call of the contract function of the same name and returns
    that call's value; every mutating operation, called with a sender
    followed by its arguments, submits the contract function's
    transaction from that sender, passes the hash to [mine_tx] and
    returns what [mine_tx] returns; and a mutating operation called with
    any other number of arguments raises a [TypeError]. *)
Theorem facade_operations SD OI address name :
  let self := ExternStateFeeTokenInterface SD OI (VContract address) name in
  (∀ fn n pos,
     (fn, n) ∈ view_operations → length pos = n →
     invoke self fn pos = call_ (VContractFunction (VContract address) fn pos)) ∧
  (∀ fn n sender rest,
     (fn, n) ∈ mutating_operations → length rest = n →
     invoke self fn (sender :: rest)
     = (tx ← transact (VContractFunction (VContract address) fn rest) [("from", sender)];
        call (Call mine_tx [tx; VStr fn; VLambda (LView "name" 0)] []))) ∧
  (∀ fn n pos,
     (fn, n) ∈ mutating_operations → length pos ≠ S n →
     ∃ e, invoke self fn pos = Raise e ∧ exn_class_of e = TypeError).
Proof.
  split_and!.
  - apply FacadeFacts.invoke_view.
  - apply FacadeFacts.invoke_mutating.
  - apply FacadeFacts.invoke_mutating_bad_arity.
Qed.

Lemma facade_operations_witness :
  invoke fee_token "transfer" [VStr "0xSender"; VStr "0xTo"; VInt 5]
  = (tx ← transact (VContractFunction (VContract "0xFeeToken") "transfer"
                      [VStr "0xTo"; VInt 5]) [("from", VStr "0xSender")];
     call (Call mine_tx [tx; VStr "transfer"; VLambda (LView "name" 0)] [])).
Proof.
  apply (proj1 (proj2 (facade_operations base_init base_init "0xFeeToken"
                         (VStr "ExternStateFeeToken")))
           "transfer" 2 (VStr "0xSender") [VStr "0xTo"; VInt 5]).
  - unfold mutating_operations. do 5 apply list_elem_of_further. apply list_elem_of_here.
  - reflexivity.
Defined.

(** C9: after construction with a label string, the [name] attribute is
    the lambda for the contract's [name()] view, not the label; calling
    it is the read-only call of [name]; and in every run of every
    mutating operation, each call to [mine_tx] receives that lambda as
    its third argument. *)
Theorem facade_name_is_rebound SD OI address label :
  let self := ExternStateFeeTokenInterface SD OI (VContract address) (VStr label) in
  self !! "name" = Some (VLambda (LView "name" 0)) ∧
  self !! "name" ≠ Some (VStr label) ∧
  invoke self "name" [] = call_ (VContractFunction (VContract address) "name" []) ∧
  (∀ b (w : world b) fn n sender rest k margs kw o,
     (fn, n) ∈ mutating_operations → length rest = n →
     trace (exec b (invoke self fn (sender :: rest)) w) !! k
       = Some (Call mine_tx margs kw, o) →
     ∃ tx, margs = [tx; VStr fn; VLambda (LView "name" 0)]).
Proof.
  split_and!.
  - apply FacadeFacts.facade_name.
  - by rewrite FacadeFacts.facade_name.
  - apply (FacadeFacts.invoke_view _ _ _ _ "name" 0); [|done].
    unfold view_operations. do 3 apply list_elem_of_further. apply list_elem_of_here.
  - intros b w fn n sender rest k margs kw o.
    apply (FacadeFacts.mutating_mine_tx_arguments _ _ _ _ b w fn n).
Qed.

Lemma facade_name_is_rebound_witness :
  ∃ tx, [VStr "tx:approve"; VStr "approve"; VLambda (LView "name" 0)]
        = [tx; VStr "approve"; VLambda (LView "name" 0)].
Proof.
  apply (proj2 (proj2 (proj2 (facade_name_is_rebound base_init base_init "0xFeeToken"
                                "ExternStateFeeToken")))
           (chain "0x" never) tt "approve" 2 (VStr "0xOwner")
           [VStr "0xSpender"; VInt 7] 1
           [VStr "tx:approve"; VStr "approve"; VLambda (LView "name" 0)] [] (inr VNone)).
  - unfold mutating_operations. do 6 apply list_elem_of_further. apply list_elem_of_here.
  - reflexivity.
  - vm_compute. reflexivity.
Defined.

End FacadeProperties.

(* ===================================================================== *)
(** ** The per-test snapshot                                              *)
(* ===================================================================== *)



Module HarnessFacts.
Import Facade Harness.



End HarnessFacts.

Module HarnessProperties.
Import Facade Harness Scenarios.




End HarnessProperties.

(* ===================================================================== *)
(** ** run_tests.py                                                       *)
(* ===================================================================== *)

Module RunTestsFacts.
Import RunTests.



Lemma load_tests_cons test_settings loader item items test_suite :
  load_tests test_settings loader (item :: items) test_suite
  = (enabled ← lift (py_subscript test_settings item);
     if truthy enabled then
       module ← getattr_tests_ item;
       tests ← call (Method loader "loadTestsFromModule" [module]);
       test_suite ← lift (addTests test_suite tests);
       load_tests test_settings loader items test_suite
     else
       load_tests test_settings loader items test_suite).
Proof. done. Qed.


Lemma load_tests_events b (w : world b) test_settings loader items test_suite :
  Forall (λ en : entry, is_loader_event en.1)
    (trace (exec b (load_tests test_settings loader items test_suite) w)).
Proof.
  revert w test_suite. induction items as [|item items IH]; intros w test_suite; cbn.
  - constructor.
  - destruct (py_subscript test_settings item) as [e|enabled]; cbn; [constructor|].
    destruct (truthy enabled); [|apply IH].
    destruct item; cbn; try constructor.
    destruct (handle b _ w) as [[e|module] w1]; run_simpl; repeat constructor.
    destruct (handle b _ w1) as [[e|tests] w2]; run_simpl; repeat constructor.
    destruct (addTests test_suite tests) as [e|test_suite']; cbn; [constructor|].
    apply IH.
Qed.

(** The loop over the keys of a settings dictionary: when it completes,
    the suite is the one it started from followed by the tests of the
    enabled modules, in the order of the keys, each obtained by
    [loader.loadTestsFromModule(getattr(tests, item))]. *)
Lemma load_tests_spec b kvs loader (items : list string) :
  ∀ (w : world b) test_suite0 r,
    r = exec b (load_tests (VDict kvs) loader (VStr <$> items) test_suite0) w →
    ∀ test_suite,
    result r = inr test_suite →
    ∃ loaded : list (string * list value),
      test_suite = test_suite0 ++ concat loaded.*2 ∧
      loaded.*1 = filter (λ item, enabled kvs item) items ∧
      Forall (λ '(item, tests),
                ∃ module loaded_tests,
                  (Call getattr_tests [VStr item] [], inr module) ∈ trace r ∧
                  (Method loader "loadTestsFromModule" [module], inr loaded_tests)
                    ∈ trace r ∧
                  addTests [] loaded_tests = inr tests) loaded.
Proof.
  induction items as [|item items IH]; intros w test_suite0 r Hr test_suite.
  - subst r. intros [= <-]. exists []. by rewrite app_nil_r.
  - rewrite filter_cons.
    rewrite fmap_cons, load_tests_cons, exec_bind in Hr.
    cbn -[load_tests] in Hr. unfold py_getitem in Hr.
    destruct (dict_get kvs item) as [v|] eqn:Hget; cbn -[load_tests] in Hr;
      [|by subst r].
    assert (Hen : enabled kvs item = truthy v) by (unfold enabled; by rewrite Hget).
    destruct (truthy v) eqn:Hv; cbn -[load_tests] in Hr.
    + destruct (handle b _ w) as [[e|module] w1]; run_simpl; [by subst r|].
      cbn -[load_tests] in Hr.
      destruct (handle b _ w1) as [[e|tests] w2]; [by subst r|].
      cbn -[load_tests] in Hr.
      destruct (addTests test_suite0 tests) as [e|test_suite'] eqn:Hadd;
        cbn -[load_tests] in Hr; [by subst r|].
      subst r. run_simpl. intros Hres.
      destruct (IH _ _ _ eq_refl _ Hres) as (loaded & -> & Hkeys & Hall).
      assert (∃ ts, addTests [] tests = inr ts ∧ test_suite' = test_suite0 ++ ts)
        as (ts & Hts & ->).
      { destruct tests; cbn in Hadd |- *; simplify_eq; eauto. }
      exists ((item, ts) :: loaded). cbn. split_and!.
      * by rewrite <-app_assoc.
      * rewrite decide_True by (by rewrite Hen). by f_equal.
      * constructor.
        -- exists module, tests. split_and!; [| |done].
           ++ apply elem_of_cons. by left.
           ++ apply elem_of_cons. right. apply elem_of_cons. by left.
        -- eapply Forall_impl; [exact Hall|]. intros [item' ts'] (m & lt & H1 & H2 & H3).
           exists m, lt. split_and!; [| |done]; by do 2 (apply elem_of_cons; right).
    + rewrite decide_False by (rewrite Hen; exact id). subst r. run_simpl. by apply (IH w).
Qed.





Ltac run_step' :=
  match goal with
  | |- context [handle ?b ?ev ?w] =>
      let w' := fresh "w" in
      destruct (handle b ev w) as [[?|?] w']
  end; cbn -[load_tests]; rewrite ?if_Raise; cbn -[load_tests];
  rewrite ?trace_log, ?result_log, ?final_log.


Lemma dict_get_Some_key kvs item v :
  dict_get kvs item = Some v → item ∈ kvs.*1.
Proof.
  induction kvs as [|[k x] kvs IH]; cbn; [done|].
  destruct (String.eqb k item) eqn:Hk.
  - apply String.eqb_eq in Hk as ->. intros _. apply elem_of_cons. by left.
  - intros H. apply elem_of_cons. right. by apply IH.
Qed.

Lemma enabled_spec kvs item :
  enabled kvs item ↔ ∃ v, dict_get kvs item = Some v ∧ truthy v = true.
Proof.
  unfold enabled. destruct (dict_get kvs item) as [v|]; split.
  - intros H. exists v. split; [done|]. by apply Is_true_true.
  - intros (v' & [= <-] & Hv). by apply Is_true_true.
  - done.
  - by intros (v & ? & _).
Qed.

Section Main.
Variables gem devnull STDOUT : value.


Ltac mem H Hev :=
  cbn in H;
  repeat first
    [ apply elem_of_nil in H; destruct H
    | by (rewrite Forall_forall in Hev; apply Hev in H)
    | apply elem_of_cons in H as [H|H]; [try discriminate H|]
    | apply elem_of_app in H as [H|H];
      [by (rewrite Forall_forall in Hev; apply Hev in H)|] ].

Lemma main_runs_loaded_suite b (w : world b) runner suite o settings :
  let r := exec b (main gem devnull STDOUT) w in
  (Method runner "run" [VList suite], o) ∈ trace r →
  (Call load_test_settings [] [], inr settings) ∈ trace r →
  ∃ loader items (w' : world b),
    iterate settings = inr items ∧
    result (exec b (load_tests settings loader items []) w') = inr suite ∧
    trace (exec b (load_tests settings loader items []) w') ⊆ trace r.
Proof.
  cbv zeta. unfold main. cbn -[load_tests].
  assert (Hnil : Forall (λ en : entry, is_loader_event en.1) []) by constructor.
  do 7 (run_step'; [by intros H; mem H Hnil|]).
  destruct (iterate v4) as [e|items] eqn:Hit; cbn -[load_tests];
    [by intros H; mem H Hnil|].
  rewrite exec_bind.
  pose proof (load_tests_events b w6 v4 v5 items []) as Hev.
  destruct (exec b (load_tests v4 v5 items []) w6) as [trL [eL|suite'] wL] eqn:HL;
    cbn -[load_tests] in *.
  - intros H; mem H Hev.
  - rewrite ?trace_log, ?result_log, ?final_log.
    do 2 (run_step'; [by intros H; mem H Hev|]).
    repeat (first [run_step' | progress cbn -[load_tests]];
            try (lazymatch goal with
                 | |- context [handle _ _ _] => fail
                 | |- _ =>
                     solve [ intros Hrun Hset; mem Hrun Hev; simplify_eq;
                             mem Hset Hev; simplify_eq;
                             exists v5, items, w6; rewrite HL;
                             split_and!; [done..|];
                             intros x Hx; cbn in Hx |- *;
                             repeat (apply elem_of_cons; right);
                             apply elem_of_app; by left ]
                 end)).
Qed.
End Main.

End RunTestsFacts.

Module RunTestsProperties.
Import RunTests Scenarios.



(** C10: under every backend, when the runner is handed a suite and the
    settings loaded were the dictionary [kvs], the suite is the
    concatenation, in the order of the keys, of the tests that
    [loader.loadTestsFromModule(getattr(tests, item))] returned for the
    keys whose entry is truthy; a module's tests are loaded into the
    suite if and only if its entry is truthy. *)
Theorem suite_holds_tests_of_enabled_modules
    gem devnull STDOUT b (w : world b) runner suite o kvs :
  let r := exec b (main gem devnull STDOUT) w in
  (Method runner "run" [VList suite], o) ∈ trace r →
  (Call load_test_settings [] [], inr (VDict kvs)) ∈ trace r →
  ∃ loader (loaded : list (string * list value)),
    suite = concat loaded.*2 ∧
    loaded.*1 = filter (λ item, enabled kvs item) kvs.*1 ∧
    (∀ item, item ∈ loaded.*1 ↔ ∃ v, dict_get kvs item = Some v ∧ truthy v = true) ∧
    Forall (λ '(item, tests),
              ∃ module loaded_tests,
                (Call getattr_tests [VStr item] [], inr module) ∈ trace r ∧
                (Method loader "loadTestsFromModule" [module], inr loaded_tests)
                  ∈ trace r ∧
                addTests [] loaded_tests = inr tests) loaded.
Proof.
  intros r Hrun Hset.
  destruct (RunTestsFacts.main_runs_loaded_suite gem devnull STDOUT b w
              runner suite o (VDict kvs) Hrun Hset)
    as (loader & items & w' & Hit & Hres & Hsub).
  assert (items = VStr <$> kvs.*1) as ->.
  { injection Hit as <-. by rewrite <-list_fmap_compose. }
  destruct (RunTestsFacts.load_tests_spec b kvs loader kvs.*1 w' [] _ eq_refl suite Hres)
    as (loaded & -> & Hkeys & Hall).
  exists loader, loaded. split_and!; [done|done| |].
  - intros item. rewrite Hkeys, list_elem_of_filter, RunTestsFacts.enabled_spec.
    split; [by intros [? _]|]. intros (v & Hget & Hv). split; [by eauto|].
    by eapply RunTestsFacts.dict_get_Some_key.
  - eapply Forall_impl; [exact Hall|]. intros [item tests] (m & lt & H1 & H2 & H3).
    exists m, lt. split_and!; [by apply Hsub|by apply Hsub|done].
Qed.

Lemma suite_holds_tests_of_enabled_modules_witness :
  ∃ loader (loaded : list (string * list value)),
    [VStr "module test_Owned: first test"; VStr "module test_Owned: second test"]
      = concat loaded.*2 ∧
    loaded.*1 = filter (λ item, enabled test_settings item) test_settings.*1 ∧
    (∀ item, item ∈ loaded.*1 ↔
             ∃ v, dict_get test_settings item = Some v ∧ truthy v = true) ∧
    Forall (λ '(item, tests),
              ∃ module loaded_tests,
                (Call getattr_tests [VStr item] [], inr module)
                  ∈ trace (exec (machine (VBool true)) run_tests_main tt) ∧
                (Method loader "loadTestsFromModule" [module], inr loaded_tests)
                  ∈ trace (exec (machine (VBool true)) run_tests_main tt) ∧
                addTests [] loaded_tests = inr tests) loaded.
Proof.
  apply (suite_holds_tests_of_enabled_modules
           (VStr "ganache-cli could not be launched") (VStr "/dev/null") (VInt (-2))
           (machine (VBool true)) tt (VObject 11)
           [VStr "module test_Owned: first test"; VStr "module test_Owned: second test"]
           (inr (VObject 12)) test_settings).
  - vm_compute. do 11 apply list_elem_of_further. apply list_elem_of_here.
  - vm_compute. do 5 apply list_elem_of_further. apply list_elem_of_here.
Defined.

End RunTestsProperties.

(* ===================================================================== *)
(** ** More on tests/test_utils.py                                        *)
(* ===================================================================== *)

Module TestUtilsRuns.
Import TestUtils TestUtilsFacts Vocabulary.

Lemma first_arg_error e e1 : first_arg e = inl e1 → exn_class_of e1 = IndexError.
Proof. unfold first_arg. destruct (args e); by intros [= <-]. Qed.

Lemma py_getitem_error v k e :
  py_getitem v k = inl e → exn_class_of e = KeyError ∨ exn_class_of e = TypeError.
Proof.
  unfold py_getitem. destruct v; try (intros [= <-]; by right).
  destruct (dict_get kvs k); intros [= <-]. by left.
Qed.

Lemma py_contains_error needle v e :
  py_contains needle v = inl e → exn_class_of e = TypeError.
Proof. unfold py_contains. destruct v; by intros [= <-]. Qed.

(** The checks on the caught exception issue no event; they pass or end
    in an assertion failure or in the error of a malformed payload. *)
Lemma revert_checks_run b (w : world b) e :
  ∃ res, exec b (revert_checks e) w = mkRun [] res w ∧
         (res = inr tt ∨
          ∃ e', res = inl e' ∧
                exn_class_of e' ∈ [AssertionError; IndexError; KeyError; TypeError]).
Proof.
  assert (Hfail : ∀ e' : exn,
    exn_class_of e' ∈ [AssertionError; IndexError; KeyError; TypeError] →
    ∃ res, mkRun (R:=unit) [] (inl e') w = mkRun [] res w ∧
           (res = inr tt ∨
            ∃ e'', res = inl e'' ∧
                   exn_class_of e'' ∈ [AssertionError; IndexError; KeyError; TypeError])).
  { intros e' Hin. eexists. split; [done|]. right. by eexists. }
  destruct (first_arg e) as [e1|payload] eqn:H1;
    cbn -[py_getitem py_contains first_arg py_eq].
  { apply Hfail. rewrite (first_arg_error _ _ H1). set_solver. }
  destruct (py_getitem payload "message") as [e2|message] eqn:H2;
    cbn -[py_getitem py_contains first_arg py_eq].
  { apply Hfail. destruct (py_getitem_error _ _ _ H2) as [->| ->]; set_solver. }
  destruct (py_contains "revert" message) as [e3|[|]] eqn:H3;
    cbn -[py_getitem py_contains first_arg py_eq].
  { apply Hfail. rewrite (py_contains_error _ _ _ H3). set_solver. }
  2:{ apply Hfail. cbn. set_solver. }
  destruct (py_getitem payload "code") as [e4|code] eqn:H4;
    cbn -[py_getitem py_contains first_arg py_eq].
  { apply Hfail. destruct (py_getitem_error _ _ _ H4) as [->| ->]; set_solver. }
  unfold assertEqual. destruct (py_eq (VInt (-32000)) code); cbn.
  - eexists. split; [done|]. by left.
  - apply Hfail. cbn. set_solver.
Qed.

(** A revert assertion issues exactly the events of the operation it
    wraps and leaves the backend where the operation left it. *)
Lemma asserted_operation_run b (w : world b) (body : prog value) :
  let r := exec b (assertRaises ValueError body ≫= λ e, revert_checks e) w in
  trace r = trace (exec b body w) ∧ final r = final (exec b body w).
Proof.
  unfold assertRaises. rewrite !exec_bind, exec_catch. cbn.
  destruct (result (exec b body w)) as [e|v]; cbn; [|by rewrite app_nil_r].
  destruct (decide (exn_class_of e = ValueError)); cbn; [|by rewrite app_nil_r].
  destruct (revert_checks_run b (final (exec b body w)) e) as (res & -> & _). cbn.
  by rewrite !app_nil_r.
Qed.

Lemma asserted_operation_failure_modes b (w : world b) (body : prog value) :
  failure_modes b w body (assertRaises ValueError body ≫= λ e, revert_checks e).
Proof.
  unfold failure_modes, assertRaises. rewrite !exec_bind, exec_catch. cbn.
  split_and!.
  - intros v ->. done.
  - intros e -> Hcls. cbn. by rewrite decide_False.
  - intros e Hres Hcls Hsig.
    pose proof (asserted_operation_passes b w body) as Hpass.
    unfold assertRaises in Hpass. rewrite !exec_bind, exec_catch in Hpass.
    cbn in Hpass. rewrite Hres in Hpass |- *. cbn in Hpass |- *.
    rewrite decide_True in Hpass |- * by done. cbn in Hpass |- *.
    destruct (revert_checks_run b (final (exec b body w)) e) as (res & Hrun & Hres').
    rewrite Hrun in Hpass |- *. cbn in Hpass |- *.
    destruct Hres' as [->|(e' & -> & Hin)]; [|by eauto].
    destruct Hsig. destruct (proj1 Hpass eq_refl) as (e2 & [= <-] & Hs). done.
Qed.

End TestUtilsRuns.

Module TestUtilsOutcomes.
Import TestUtils Vocabulary Scenarios.

(** When a revert assertion does not pass: if the asserted operation
    returned, the helper raises the assertion failure "exception not
    raised"; if the operation raised an exception that is not a
    [ValueError], the helper raises that same exception (the test ends
    in an error, not in a failure); if it raised a [ValueError] without
    the revert signal, the helper raises an [AssertionError] or the
    [IndexError], [KeyError] or [TypeError] of reading a malformed
    payload.  This holds for the view path and for the submit path. *)
Theorem revert_assertions_failure_modes b (w : world b) testcase function caller gas :
  failure_modes b w (call_ function) (assertCallReverts testcase function) ∧
  failure_modes b w
    (tx ← transact function [("from", caller); ("gas", gas)];
     call (Call mine_tx [tx] []))
    (assertTransactionReverts testcase function caller gas).
Proof. split; apply TestUtilsRuns.asserted_operation_failure_modes. Qed.

Lemma revert_assertions_failure_modes_witness :
  ∃ e', result (exec (chain "0x" (view_call_fails out_of_gas_error))
                  (assertCallReverts VNone (VContractFunction (VContract "0xOwned") "owner" []))
                  tt) = inl e' ∧
        exn_class_of e' ∈ [AssertionError; IndexError; KeyError; TypeError].
Proof.
  apply (proj2 (proj2 (proj1 (revert_assertions_failure_modes
                                (chain "0x" (view_call_fails out_of_gas_error)) tt VNone
                                (VContractFunction (VContract "0xOwned") "owner" [])
                                VNone VNone)))
           out_of_gas_error).
  - reflexivity.
  - reflexivity.
  - intros (_ & payload & message & code & Hp & Hm & Hc & _).
    vm_compute in Hp. injection Hp as <-.
    vm_compute in Hm. injection Hm as <-.
    vm_compute in Hc. discriminate Hc.
Defined.

(** The events of the revert assertions: [assertCallReverts] issues the
    one view call and nothing else (it never submits a transaction);
    [assertTransactionReverts] submits the transaction once, from
    [caller] with the given [gas], and calls [mine_tx] on the returned
    hash only when the submission returned one.  Neither helper touches
    the backend after the asserted operation. *)
Theorem revert_assertions_events b (w : world b) testcase function caller gas :
  let view := Method function "call" [] in
  let submit := Method function "transact" [VDict [("from", caller); ("gas", gas)]] in
  let r1 := exec b (assertCallReverts testcase function) w in
  let r2 := exec b (assertTransactionReverts testcase function caller gas) w in
  trace r1 = [(view, (handle b view w).1)] ∧
  final r1 = (handle b view w).2 ∧
  match handle b submit w with
  | (inl e, w1) => trace r2 = [(submit, inl e)] ∧ final r2 = w1
  | (inr tx, w1) =>
      trace r2 = [(submit, inr tx);
                  (Call mine_tx [tx] [], (handle b (Call mine_tx [tx] []) w1).1)] ∧
      final r2 = (handle b (Call mine_tx [tx] []) w1).2
  end.
Proof.
  intros view submit r1 r2.
  destruct (TestUtilsRuns.asserted_operation_run b w (call_ function)) as [Ht1 Hf1].
  destruct (TestUtilsRuns.asserted_operation_run b w
              (tx ← transact function [("from", caller); ("gas", gas)];
               call (Call mine_tx [tx] []))) as [Ht2 Hf2].
  subst r1 r2. unfold assertCallReverts, assertTransactionReverts.
  rewrite Ht1, Hf1, Ht2, Hf2. clear. cbn. fold view submit.
  split_and!.
  - destruct (handle b view w) as [[e|v] w1]; by run_simpl.
  - destruct (handle b view w) as [[e|v] w1]; by run_simpl.
  - destruct (handle b submit w) as [[e|tx] w1]; run_simpl; [done|].
    destruct (handle b (Call mine_tx [tx] []) w1) as [[e|v] w2]; by run_simpl.
Qed.

End TestUtilsOutcomes.

(* ===================================================================== *)
(** ** More on the contract interface facade                              *)
(* ===================================================================== *)

Module FacadeRuns.
Import Facade Vocabulary Scenarios.

Section FacadeRuns.
Variable SD OI : obj → value → value → obj.

Lemma assigned_attribute_value contract name a :
  a ∈ assigned_attributes →
  ∃ v, ∀ SD' OI', ExternStateFeeTokenInterface SD' OI' contract name !! a = Some v.
Proof.
  unfold assigned_attributes, view_operations, mutating_operations. cbn. intros H.
  unfold ExternStateFeeTokenInterface. cbv zeta.
  repeat (apply elem_of_cons in H as [->|H];
          [eexists; intros SD' OI'; rewrite ?lookup_insert_ne by done;
           apply lookup_insert_eq|]).
  by apply elem_of_nil in H.
Qed.

Lemma assigned_attribute_lookup contract name SD' OI' a :
  a ∈ assigned_attributes →
  ExternStateFeeTokenInterface SD OI contract name !! a
  = ExternStateFeeTokenInterface SD' OI' contract name !! a ∧
  is_Some (ExternStateFeeTokenInterface SD OI contract name !! a).
Proof.
  intros H. destruct (assigned_attribute_value contract name a H) as [v Hv].
  rewrite !Hv. split; [done|by eexists].
Qed.

Lemma other_attribute_lookup contract name a :
  a ∉ assigned_attributes →
  ExternStateFeeTokenInterface SD OI contract name !! a
  = OI (SD ∅ contract name) contract name !! a.
Proof.
  unfold assigned_attributes, view_operations, mutating_operations. cbn. intros H.
  assert (Hne : Forall (λ k, k ≠ a)
    ["contract"; "owner"; "totalSupply"; "state"; "name"; "symbol"; "balanceOf";
     "allowance"; "transferFeeRate"; "feePool"; "feeAuthority"; "transferFeeIncurred";
     "transferPlusFee"; "priceToSpend"; "nominateOwner"; "acceptOwnership";
     "setTransferFeeRate"; "setFeeAuthority"; "setState"; "transfer"; "approve";
     "transferFrom"; "withdrawFee"; "donateToFeePool"]).
  { apply Forall_forall. intros k Hk <-. done. }
  repeat (apply Forall_cons in Hne as [? Hne]).
  unfold ExternStateFeeTokenInterface. cbv zeta.
  by rewrite !lookup_insert_ne by done.
Qed.

Lemma invoke_view_bad_arity address name fn n pos :
  (fn, n) ∈ view_operations → length pos ≠ n →
  invoke (ExternStateFeeTokenInterface SD OI (VContract address) name) fn pos
  = raise_ TypeError "wrong number of positional arguments".
Proof.
  intros Hin Hlen. unfold invoke, getattr.
  rewrite (FacadeFacts.facade_view SD OI address name _ _ Hin). cbn.
  by rewrite decide_False.
Qed.

End FacadeRuns.

(** The constructor and the base classes: an attribute the constructor
    does not assign keeps the value the base-class constructors stored
    (or stays absent); an attribute it assigns is present afterwards and
    its value does not depend on what the base-class constructors did. *)
Theorem facade_constructor_frame SD OI contract name :
  (∀ a, a ∉ assigned_attributes →
        ExternStateFeeTokenInterface SD OI contract name !! a
        = OI (SD ∅ contract name) contract name !! a) ∧
  (∀ a SD' OI', a ∈ assigned_attributes →
        ExternStateFeeTokenInterface SD OI contract name !! a
        = ExternStateFeeTokenInterface SD' OI' contract name !! a ∧
        is_Some (ExternStateFeeTokenInterface SD OI contract name !! a)).
Proof.
  split.
  - apply other_attribute_lookup.
  - intros a SD' OI'. apply assigned_attribute_lookup.
Qed.

Lemma facade_constructor_frame_witness :
  fee_token !! "label" = Some (VStr "ExternStateFeeToken").
Proof.
  unfold fee_token.
  rewrite (proj1 (facade_constructor_frame base_init base_init
                    (VContract "0xFeeToken") (VStr "ExternStateFeeToken")) "label").
  - reflexivity.
  - unfold assigned_attributes, view_operations, mutating_operations. cbn.
    intros H. repeat (apply elem_of_cons in H as [[=]|H]). by apply elem_of_nil in H.
Defined.

(** What an operation of the facade does to the backend.  A view
    operation with the right number of arguments issues exactly one
    event, the read-only call, and returns or raises what it did; a
    mutating operation submits once and calls [mine_tx] only when the
    submission returned a hash (a rejected submission is never mined);
    an operation called with a wrong number of arguments issues no
    event at all. *)
Theorem facade_operation_events SD OI address name b (w : world b) :
  let self := ExternStateFeeTokenInterface SD OI (VContract address) name in
  (∀ fn n pos,
     (fn, n) ∈ view_operations → length pos = n →
     let view := Method (VContractFunction (VContract address) fn pos) "call" [] in
     let r := exec b (invoke self fn pos) w in
     trace r = [(view, (handle b view w).1)] ∧
     result r = (handle b view w).1 ∧
     final r = (handle b view w).2) ∧
  (∀ fn n sender rest,
     (fn, n) ∈ mutating_operations → length rest = n →
     let submit := Method (VContractFunction (VContract address) fn rest) "transact"
                     [VDict [("from", sender)]] in
     let r := exec b (invoke self fn (sender :: rest)) w in
     match handle b submit w with
     | (inl e, w1) => trace r = [(submit, inl e)] ∧ result r = inl e ∧ final r = w1
     | (inr tx, w1) =>
         let mine := Call mine_tx [tx; VStr fn; VLambda (LView "name" 0)] [] in
         trace r = [(submit, inr tx); (mine, (handle b mine w1).1)] ∧
         result r = (handle b mine w1).1 ∧
         final r = (handle b mine w1).2
     end) ∧
  (∀ fn n pos,
     ((fn, n) ∈ view_operations ∧ length pos ≠ n) ∨
     ((fn, n) ∈ mutating_operations ∧ length pos ≠ S n) →
     trace (exec b (invoke self fn pos) w) = [] ∧
     final (exec b (invoke self fn pos) w) = w ∧
     ∃ e, result (exec b (invoke self fn pos) w) = inl e ∧ exn_class_of e = TypeError).
Proof.
  intros self. subst self. split_and!.
  - intros fn n pos Hin Hlen view r. subst r.
    rewrite (FacadeFacts.invoke_view SD OI address name fn n pos Hin Hlen). cbn.
    fold view. destruct (handle b view w) as [[e|v] w1]; by run_simpl.
  - intros fn n sender rest Hin Hlen submit r. subst r.
    rewrite (FacadeFacts.invoke_mutating SD OI address name fn n sender rest Hin Hlen).
    cbn. fold submit. destruct (handle b submit w) as [[e|tx] w1]; run_simpl; [done|].
    destruct (handle b _ w1) as [[e|v] w2]; by run_simpl.
  - intros fn n pos [[Hin Hlen]|[Hin Hlen]].
    + rewrite (invoke_view_bad_arity SD OI address name fn n pos Hin Hlen). cbn.
      by eauto.
    + destruct (FacadeFacts.invoke_mutating_bad_arity SD OI address name fn n pos Hin Hlen)
        as (e & -> & Hcls). cbn. by eauto.
Qed.

Lemma facade_operation_events_witness :
  trace (exec (chain "0x" never) (invoke fee_token "transfer" [VStr "0xTo"; VInt 5]) tt) = [] ∧
  final (exec (chain "0x" never) (invoke fee_token "transfer" [VStr "0xTo"; VInt 5]) tt) = tt ∧
  ∃ e, result (exec (chain "0x" never)
                 (invoke fee_token "transfer" [VStr "0xTo"; VInt 5]) tt) = inl e ∧
       exn_class_of e = TypeError.
Proof.
  apply (proj2 (proj2 (facade_operation_events base_init base_init "0xFeeToken"
                         (VStr "ExternStateFeeToken") (chain "0x" never) tt))
           "transfer" 2 [VStr "0xTo"; VInt 5]).
  right. split.
  - unfold mutating_operations. do 5 apply list_elem_of_further. apply list_elem_of_here.
  - cbn. lia.
Defined.

End FacadeRuns.

(* ===================================================================== *)
(** ** More on the test classes                                           *)
(* ===================================================================== *)

Module TestRuns.
Import Facade Harness Vocabulary Scenarios.









(** TestOwned.test_change_owner undoes its own change: in every run in
    which it passes, it read the owner, had MASTER set the owner to
    DUMMY, read DUMMY back, and then had DUMMY set the owner to the very
    value read at the start; these six calls are all it did. *)
Theorem test_change_owner_restores_owner MASTER DUMMY b (w : world b) self :
  let r := exec b (TestOwned.test_change_owner MASTER DUMMY self) w in
  result r = inr tt →
  ∃ owned old_owner tx1 v1 a tx2 v2,
    self !! "owned" = Some (VContract owned) ∧
    py_eq a DUMMY = true ∧
    trace r =
      [(Method (VContractFunction (VContract owned) "owner" []) "call" [], inr old_owner);
       (Method (VContractFunction (VContract owned) "setOwner" [DUMMY]) "transact"
          [VDict [("from", MASTER)]], inr tx1);
       (Call mine_tx [tx1] [], inr v1);
       (Method (VContractFunction (VContract owned) "owner" []) "call" [], inr a);
       (Method (VContractFunction (VContract owned) "setOwner" [old_owner]) "transact"
          [VDict [("from", DUMMY)]], inr tx2);
       (Call mine_tx [tx2] [], inr v2)].
Proof.
  unfold TestOwned.test_change_owner, TestOwned.owned_function, getattr, assertEqual.
  destruct (self !! "owned") as [[]|]; cbn; try (by intros [=]).
  do 4 (match goal with
        | |- context [handle ?b ?ev ?w] =>
            let w' := fresh "w" in destruct (handle b ev w) as [[?|?] w']
        end; run_simpl; [by intros [=]|]).
  destruct (py_eq v2 DUMMY) eqn:Heq; run_simpl; [|by intros [=]].
  do 2 (match goal with
        | |- context [handle ?b ?ev ?w] =>
            let w' := fresh "w" in destruct (handle b ev w) as [[?|?] w']
        end; run_simpl; [by intros [=]|]).
  intros _. by eexists _, _, _, _, _, _, _.
Qed.

Lemma test_change_owner_restores_owner_witness :
  let r := exec owned_chain
             (TestOwned.test_change_owner (VStr "0xMASTER") (VStr "0xDUMMY")
                owned_test_instance) "0xMASTER" in
  ∃ owned old_owner tx1 v1 a tx2 v2,
    owned_test_instance !! "owned" = Some (VContract owned) ∧
    py_eq a (VStr "0xDUMMY") = true ∧
    trace r =
      [(Method (VContractFunction (VContract owned) "owner" []) "call" [], inr old_owner);
       (Method (VContractFunction (VContract owned) "setOwner" [VStr "0xDUMMY"]) "transact"
          [VDict [("from", VStr "0xMASTER")]], inr tx1);
       (Call mine_tx [tx1] [], inr v1);
       (Method (VContractFunction (VContract owned) "owner" []) "call" [], inr a);
       (Method (VContractFunction (VContract owned) "setOwner" [old_owner]) "transact"
          [VDict [("from", VStr "0xDUMMY")]], inr tx2);
       (Call mine_tx [tx2] [], inr v2)].
Proof.
  apply (test_change_owner_restores_owner (VStr "0xMASTER") (VStr "0xDUMMY")
           owned_chain "0xMASTER" owned_test_instance).
  reflexivity.
Defined.

End TestRuns.

(* ===================================================================== *)
(** ** More on run_tests.py                                               *)
(* ===================================================================== *)

Module RunTestsRuns.
Import RunTests RunTestsFacts Vocabulary Scenarios.

Lemma dict_get_Some_elem kvs k v : dict_get kvs k = Some v → (k, v) ∈ kvs.
Proof.
  induction kvs as [|[k' x] kvs IH]; cbn; [done|].
  destruct (String.eqb k' k) eqn:Hk.
  - apply String.eqb_eq in Hk as ->. intros [= ->]. apply elem_of_cons. by left.
  - intros H. apply elem_of_cons. right. by apply IH.
Qed.

(** Every [getattr(tests, item)] of the loop is for an item the loop
    visits and whose entry in the settings is truthy. *)
Lemma getattr_only_for_enabled b (w : world b) test_settings loader items test_suite item o :
  (Call getattr_tests [item] [], o)
    ∈ trace (exec b (load_tests test_settings loader items test_suite) w) →
  item ∈ items ∧ ∃ v, py_subscript test_settings item = inr v ∧ truthy v = true.
Proof.
  revert w test_suite.
  induction items as [|item' items IH]; intros w test_suite; cbn -[py_subscript].
  { intros H. by apply elem_of_nil in H. }
  destruct (py_subscript test_settings item') as [e|v] eqn:Hsub; cbn -[py_subscript].
  { intros H. by apply elem_of_nil in H. }
  destruct (truthy v) eqn:Hv.
  2:{ intros H. apply IH in H as [Hin Hen]. split; [|done]. apply elem_of_cons. by right. }
  destruct item'; cbn -[py_subscript];
    try (intros H; by apply elem_of_nil in H).
  destruct (handle b _ w) as [[e|module] w1]; run_simpl.
  { intros [[= -> ->]|H]%elem_of_cons; [|by apply elem_of_nil in H].
    split; [apply elem_of_cons; by left|by eauto]. }
  destruct (handle b _ w1) as [[e|tests] w2]; run_simpl.
  { intros [[= -> ->]|[[=]|H]%elem_of_cons]%elem_of_cons; [|by apply elem_of_nil in H].
    split; [apply elem_of_cons; by left|by eauto]. }
  destruct (addTests test_suite tests) as [e|test_suite']; cbn -[py_subscript].
  { intros [[= -> ->]|[[=]|H]%elem_of_cons]%elem_of_cons; [|by apply elem_of_nil in H].
    split; [apply elem_of_cons; by left|by eauto]. }
  intros [[= -> ->]|[[=]|H]%elem_of_cons]%elem_of_cons.
  - split; [apply elem_of_cons; by left|by eauto].
  - apply IH in H as [Hin Hen]. split; [|done]. apply elem_of_cons. by right.
Qed.

(** A loop over items that are all disabled does nothing. *)
Lemma load_tests_all_disabled b (w : world b) test_settings loader items test_suite :
  Forall (λ item, ∃ v, py_subscript test_settings item = inr v ∧ truthy v = false) items →
  exec b (load_tests test_settings loader items test_suite) w = mkRun [] (inr test_suite) w.
Proof.
  induction 1 as [|item items (v & Hsub & Hv) _ IH]; [done|].
  rewrite load_tests_cons, exec_bind, Hsub. cbn -[load_tests]. rewrite Hv.
  rewrite IH. done.
Qed.

End RunTestsRuns.

Module RunTestsEdges.
Import RunTests RunTestsFacts Vocabulary Scenarios.

(** Disabled modules are never touched: in every run of the loop over
    the settings, also one that is cut short by an error,
    [getattr(tests, item)] is only ever called for an item that the loop
    visits and whose entry is truthy. *)
Theorem disabled_modules_never_looked_up
    b (w : world b) test_settings loader items test_suite item o :
  (Call getattr_tests [item] [], o)
    ∈ trace (exec b (load_tests test_settings loader items test_suite) w) →
  item ∈ items ∧ ∃ v, py_subscript test_settings item = inr v ∧ truthy v = true.
Proof. apply RunTestsRuns.getattr_only_for_enabled. Qed.

Lemma disabled_modules_never_looked_up_witness :
  VStr "test_Owned" ∈ [VStr "test_Owned"; VStr "test_TokenState"] ∧
  ∃ v, py_subscript (VDict test_settings) (VStr "test_Owned") = inr v ∧ truthy v = true.
Proof.
  apply (disabled_modules_never_looked_up (machine (VBool true)) tt (VDict test_settings)
           (VObject 10) [VStr "test_Owned"; VStr "test_TokenState"] []
           (VStr "test_Owned") (inr (VStr "module test_Owned"))).
  vm_compute. apply list_elem_of_here.
Defined.

(** Settings that enable nothing (in particular empty settings): the
    loop issues no event, leaves the suite and the backend as they
    were, and when the settings are such a dictionary the runner is
    handed the empty suite. *)
Theorem nothing_enabled_nothing_loaded gem devnull STDOUT b (w : world b) :
  (∀ test_settings loader items test_suite,
     Forall (λ item, ∃ v, py_subscript test_settings item = inr v ∧ truthy v = false)
       items →
     exec b (load_tests test_settings loader items test_suite) w
     = mkRun [] (inr test_suite) w) ∧
  (∀ kvs runner suite o,
     (∀ k v, (k, v) ∈ kvs → truthy v = false) →
     (Call load_test_settings [] [], inr (VDict kvs)) ∈ trace (exec b (main gem devnull STDOUT) w) →
     (Method runner "run" [VList suite], o) ∈ trace (exec b (main gem devnull STDOUT) w) →
     suite = []).
Proof.
  split.
  - intros test_settings loader items test_suite.
    apply RunTestsRuns.load_tests_all_disabled.
  - intros kvs runner suite o Hoff Hset Hrun.
    destruct (main_runs_loaded_suite gem devnull STDOUT b w runner suite o (VDict kvs)
                Hrun Hset) as (loader & items & w' & Hit & Hres & _).
    rewrite RunTestsRuns.load_tests_all_disabled in Hres; [by injection Hres|].
    injection Hit as <-. apply Forall_forall. intros item Hin.
    apply list_elem_of_fmap in Hin as ([k v] & -> & Hin). cbn.
    unfold py_getitem. destruct (dict_get kvs k) as [v'|] eqn:Hget.
    + exists v'. split; [done|]. eapply Hoff. by apply RunTestsRuns.dict_get_Some_elem.
    + exfalso. apply (not_elem_of_nil k).
      assert (Hk : k ∈ kvs.*1) by (apply list_elem_of_fmap; by exists (k, v)).
      clear -Hget Hk. induction kvs as [|[k' x] kvs IH]; [done|]. cbn in *.
      destruct (String.eqb k' k) eqn:Heq; [done|].
      apply elem_of_cons in Hk as [->|Hk]; [by rewrite String.eqb_refl in Heq|by apply IH].
Qed.

Lemma nothing_enabled_nothing_loaded_witness :
  exec (machine (VBool true))
    (load_tests (VDict [("test_Owned", VBool false); ("test_TokenState", VInt 0)])
       (VObject 10) [VStr "test_Owned"; VStr "test_TokenState"] []) tt
  = mkRun [] (inr []) tt.
Proof.
  apply (proj1 (nothing_enabled_nothing_loaded VNone VNone VNone (machine (VBool true)) tt)).
  repeat constructor; eexists; split; reflexivity.
Defined.

End RunTestsEdges.

Module RunTestsProcess.
Import RunTests RunTestsFacts Vocabulary Scenarios.

Ltac step_main :=
  match goal with
  | |- context [handle ?b ?ev ?w] =>
      let w' := fresh "w" in
      destruct (handle b ev w) as [[?|?] w']
  end; cbn -[load_tests]; rewrite ?if_Raise; cbn -[load_tests];
  rewrite ?trace_log, ?result_log, ?final_log.

(** Case analysis of a membership in a trace made of known entries and
    of the entries [Hev] speaks about (the events of the loop). *)
Ltac member H Hev :=
  cbn in H;
  repeat first
    [ apply elem_of_nil in H; destruct H
    | by (rewrite Forall_forall in Hev; apply Hev in H)
    | apply elem_of_cons in H as [H|H]; [try discriminate H|]
    | apply elem_of_app in H as [H|H];
      [by (rewrite Forall_forall in Hev; apply Hev in H)|] ].

Ltac find_member :=
  cbn;
  repeat first
    [ apply elem_of_cons; left; reflexivity
    | apply elem_of_cons; right
    | apply elem_of_app; right ].

Section Main.
Variables gem devnull STDOUT : value.

Lemma terminate_and_run b (w : world b) :
  let r := exec b (main gem devnull STDOUT) w in
  (∀ p o,
     (Method p "terminate" [], o) ∈ trace r →
     ∃ cmd kw runner suite res,
       (Call Popen cmd kw, inr p) ∈ trace r ∧
       (Method runner "run" [VList suite], inr res) ∈ trace r) ∧
  (∀ runner suite res,
     (Method runner "run" [VList suite], inr res) ∈ trace r →
     ∃ p o cmd kw,
       (Method p "terminate" [], o) ∈ trace r ∧
       (Call Popen cmd kw, inr p) ∈ trace r).
Proof.
  cbv zeta. unfold main. cbn -[load_tests].
  assert (Hnil : Forall (λ en : entry, is_loader_event en.1) []) by constructor.
  do 7 (step_main; [by split; intros; match goal with H : _ ∈ _ |- _ => member H Hnil end|]).
  destruct (iterate v4) as [e|items]; cbn -[load_tests];
    [by split; intros; match goal with H : _ ∈ _ |- _ => member H Hnil end|].
  rewrite exec_bind.
  pose proof (load_tests_events b w6 v4 v5 items []) as Hev.
  destruct (exec b (load_tests v4 v5 items []) w6) as [trL [eL|suite'] wL];
    cbn -[load_tests] in *.
  { by split; intros; match goal with H : _ ∈ _ |- _ => member H Hev end. }
  rewrite ?trace_log, ?result_log, ?final_log.
  do 2 (step_main;
        [by split; intros; match goal with H : _ ∈ _ |- _ => member H Hev end|]).
  step_main.
  { by split; intros; match goal with H : _ ∈ _ |- _ => member H Hev end. }
  repeat (first [step_main | progress cbn -[load_tests]];
          try (lazymatch goal with
               | |- context [handle _ _ _] => fail
               | |- _ =>
                   solve [ split; intros;
                           match goal with H : _ ∈ _ |- _ => member H Hev end;
                           simplify_eq; repeat eexists; find_member ]
               end)).
Qed.

Lemma launch_failure b (w : world b) cmd kw e :
  let r := exec b (main gem devnull STDOUT) w in
  (Call Popen cmd kw, inl e) ∈ trace r →
  result r = inl (if is_Exception (exn_class_of e) then mkExn Exception_ [gem] else e) ∧
  last (trace r) = Some (Call Popen cmd kw, inl e) ∧
  length (trace r) = 3.
Proof.
  cbv zeta. unfold main. cbn -[load_tests].
  assert (Hnil : Forall (λ en : entry, is_loader_event en.1) []) by constructor.
  do 2 (step_main; [by intros H; member H Hnil|]).
  step_main. { intros H; member H Hnil. by simplify_eq. }
  do 4 (step_main; [by intros H; member H Hnil|]).
  destruct (iterate v4) as [e'|items]; cbn -[load_tests]; [by intros H; member H Hnil|].
  rewrite exec_bind.
  pose proof (load_tests_events b w6 v4 v5 items []) as Hev.
  destruct (exec b (load_tests v4 v5 items []) w6) as [trL [eL|suite'] wL];
    cbn -[load_tests] in *.
  { by intros H; member H Hev. }
  rewrite ?trace_log, ?result_log, ?final_log.
  repeat (first [step_main | progress cbn -[load_tests]];
          try (lazymatch goal with
               | |- context [handle _ _ _] => fail
               | |- _ => solve [ intros H; member H Hev ]
               end)).
Qed.

End Main.
End RunTestsProcess.

Module RunTestsLifecycle.
Import RunTests Vocabulary Scenarios.

(** The ganache process and the suite: under every backend,
    [process.terminate()] is called only on the process [Popen]
    returned and only after [TextTestRunner.run] has returned, and it is
    called whenever [run] returned.  So a run that is cut short before
    the runner returns (settings that fail to load, a module that is
    missing, the runner raising) never terminates the process it
    launched. *)
Theorem ganache_terminated_iff_suite_ran gem devnull STDOUT b (w : world b) :
  let r := exec b (main gem devnull STDOUT) w in
  (∀ p o,
     (Method p "terminate" [], o) ∈ trace r →
     ∃ cmd kw runner suite res,
       (Call Popen cmd kw, inr p) ∈ trace r ∧
       (Method runner "run" [VList suite], inr res) ∈ trace r) ∧
  (∀ runner suite res,
     (Method runner "run" [VList suite], inr res) ∈ trace r →
     ∃ p o cmd kw,
       (Method p "terminate" [], o) ∈ trace r ∧
       (Call Popen cmd kw, inr p) ∈ trace r).
Proof. apply RunTestsProcess.terminate_and_run. Qed.

Lemma ganache_terminated_iff_suite_ran_witness :
  ∃ p o cmd kw,
    (Method p "terminate" [], o) ∈ trace (exec (machine (VBool true)) run_tests_main tt) ∧
    (Call Popen cmd kw, inr p) ∈ trace (exec (machine (VBool true)) run_tests_main tt).
Proof.
  apply (proj2 (ganache_terminated_iff_suite_ran
                  (VStr "ganache-cli could not be launched") (VStr "/dev/null")
                  (VInt (-2)) (machine (VBool true)) tt)
           (VObject 11)
           [VStr "module test_Owned: first test"; VStr "module test_Owned: second test"]
           (VObject 12)).
  vm_compute. do 11 apply list_elem_of_further. apply list_elem_of_here.
Defined.

(** When ganache cannot be launched: if [Popen] raises an exception of a
    class derived from [Exception], the block raises
    [Exception(ganache_error_message)] in its place; if [Popen] raises
    one outside [Exception] (a [KeyboardInterrupt], a [SystemExit]), the
    [except Exception] clause does not catch it and it leaves the block
    unchanged.  Either way the failed [Popen] is the third and last call
    of the run (nothing is slept on, loaded or run). *)
Theorem ganache_launch_failure gem devnull STDOUT b (w : world b) cmd kw e :
  let r := exec b (main gem devnull STDOUT) w in
  (Call Popen cmd kw, inl e) ∈ trace r →
  (is_Exception (exn_class_of e) = true → result r = inl (mkExn Exception_ [gem])) ∧
  (is_Exception (exn_class_of e) = false → result r = inl e) ∧
  last (trace r) = Some (Call Popen cmd kw, inl e) ∧
  length (trace r) = 3.
Proof.
  intros r Hin.
  destruct (RunTestsProcess.launch_failure gem devnull STDOUT b w cmd kw e Hin)
    as (Hres & Hlast & Hlen).
  fold r in Hres, Hlast, Hlen. rewrite Hres.
  split_and!; [by intros ->|by intros ->|done..].
Qed.

Lemma ganache_launch_failure_witness :
  result (exec (chain "0x" launch_fails) run_tests_main tt)
  = inl (mkExn Exception_ [VStr "ganache-cli could not be launched"]) ∧
  result (exec (chain "0x" launch_interrupted) run_tests_main tt)
  = inl KeyboardInterrupt.
Proof.
  split.
  - refine (proj1 (ganache_launch_failure (VStr "ganache-cli could not be launched")
                     (VStr "/dev/null") (VInt (-2)) (chain "0x" launch_fails) tt
                     [VList [VStr "ganache-cli"; VStr "-a"; VStr "120";
                             VStr "-e"; VStr "1000000000000"]]
                     [("stdout", VNone); ("stderr", VInt (-2))] FileNotFoundError _) _).
    + vm_compute. do 2 apply list_elem_of_further. apply list_elem_of_here.
    + reflexivity.
  - refine (proj1 (proj2 (ganache_launch_failure (VStr "ganache-cli could not be launched")
                     (VStr "/dev/null") (VInt (-2)) (chain "0x" launch_interrupted) tt
                     [VList [VStr "ganache-cli"; VStr "-a"; VStr "120";
                             VStr "-e"; VStr "1000000000000"]]
                     [("stdout", VNone); ("stderr", VInt (-2))] KeyboardInterrupt _)) _).
    + vm_compute. do 2 apply list_elem_of_further. apply list_elem_of_here.
    + reflexivity.
Defined.

End RunTestsLifecycle.

(* ===================================================================== *)
(** ** More on deploy.py                                                  *)
(* ===================================================================== *)

Module DeployRuns.
Import Vocabulary.

Ltac lookup_in H k :=
  unfold Deploy.deploy_event, Deploy.mine_event in *;
  repeat (destruct k as [|k]; cbn in H; try discriminate H);
  simplify_eq.

(** The run splits on [print_addresses] only when it gets there. *)
Ltac split_flag :=
  match goal with
  | |- context [if ?c then _ else _] => is_var c; destruct c
  end;
  cbn; rewrite ?trace_log, ?result_log.

Ltac run_to_end close :=
  repeat (first [run_step | split_flag];
          try (lazymatch goal with
               | |- context [exec _ _ _] => fail
               | |- _ => solve [close]
               end)).

(** As [run_step], keeping the equation of each unpacking. *)
Ltac run_step_eq :=
  first
    [ match goal with
      | |- context [handle ?b ?ev ?w] =>
          let w' := fresh "w" in
          destruct (handle b ev w) as [[?|?] w']
      end
    | match goal with
      | |- context [unpack2 ?v] =>
          let H := fresh "Hu" in
          destruct (unpack2_cases v) as [(?&?&_&H)|(?&H)]; rewrite H
      end
    | match goal with
      | |- context [get_address ?v] =>
          destruct (get_address_cases v) as [(?&->&_)|(?&->)]
      end ];
  cbn; rewrite ?trace_log, ?result_log.

Ltac deployed_at j :=
  exists j; do 4 eexists; split; [reflexivity|eassumption].

Section DeployRuns.
Variable MASTER : value.
Variable UNIT : Z.
Abbreviation deploy_havven := (Deploy.deploy_havven MASTER UNIT).

Lemma link_targets b (w : world b) pa k f params o :
  trace (exec b (deploy_havven pa) w) !! k = Some (Method f "transact" params, o) →
  params = [VDict [("from", MASTER)]] ∧
  ∃ fn target arg t a rt ra,
    f = VContractFunction (VContract t) fn [VStr a] ∧
    (fn, target, arg) ∈ links ∧
    deployed (trace (exec b (deploy_havven pa) w)) target (VContract t) rt ∧
    deployed (trace (exec b (deploy_havven pa) w)) arg (VContract a) ra.
Proof.
  revert k. unfold Deploy.deploy_havven, links, deployed. cbn;
    run_to_end ltac:(
      intros k Hk; lookup_in Hk k;
      (split; [reflexivity|]; do 7 eexists; split_and!;
       [ reflexivity
       | repeat first [apply list_elem_of_here | apply list_elem_of_further]
       | first [deployed_at 2 | deployed_at 3 | deployed_at 4 | deployed_at 5]
       | first [deployed_at 2 | deployed_at 3 | deployed_at 4 | deployed_at 5] ])).
Qed.

Lemma unusable_result_stops b (w : world b) pa k compiled name ctor v e :
  trace (exec b (deploy_havven pa) w) !! k
    = Some (Deploy.deploy_event MASTER compiled name ctor, inr v) →
  unpack2 v = Raise e →
  result (exec b (deploy_havven pa) w) = inl e ∧
  length (trace (exec b (deploy_havven pa) w)) = S k.
Proof.
  revert k. unfold Deploy.deploy_havven. cbn;
    repeat (first [run_step_eq | split_flag];
            try (lazymatch goal with
                 | |- context [exec _ _ _] => fail
                 | |- _ =>
                     solve [ intros k Hk Hraise; lookup_in Hk k;
                             (split; [congruence|reflexivity]) || congruence ]
                 end)).
Qed.

Lemma completed_run b (w : world b) pa ret :
  result (exec b (deploy_havven pa) w) = inr ret →
  Forall (λ en : entry, ∃ v, en.2 = inr v) (trace (exec b (deploy_havven pa) w)) ∧
  omap Deploy.deployed_name (trace (exec b (deploy_havven pa) w)) = Deploy.plan ∧
  (∃ k txs v, trace (exec b (deploy_havven pa) w) !! k
                = Some (Deploy.mine_event txs, inr v)) ∧
  ∃ h n c rh rn rc,
    deployed (trace (exec b (deploy_havven pa) w)) "Havven" h rh ∧
    deployed (trace (exec b (deploy_havven pa) w)) "EtherNomin" n rn ∧
    deployed (trace (exec b (deploy_havven pa) w)) "Court" c rc ∧
    ret = VTuple [h; n; c; rh; rn; rc].
Proof.
  revert ret. unfold Deploy.deploy_havven, deployed. cbn;
    run_to_end ltac:(
      intros ret Hret; cbn in Hret; simplify_eq;
      (split_and!;
       [ repeat (constructor; [by eexists|]); constructor
       | reflexivity
       | exists 9; do 2 eexists; reflexivity
       | do 6 eexists; split_and!;
         [deployed_at 2 | deployed_at 3 | deployed_at 4 | reflexivity] ])).
Qed.

Lemma printed_lines b (w : world b) pa ret :
  result (exec b (deploy_havven pa) w) = inr ret →
  ∃ h n c e rh rn rc re,
    deployed (trace (exec b (deploy_havven pa) w)) "Havven" (VContract h) rh ∧
    deployed (trace (exec b (deploy_havven pa) w)) "EtherNomin" (VContract n) rn ∧
    deployed (trace (exec b (deploy_havven pa) w)) "Court" (VContract c) rc ∧
    deployed (trace (exec b (deploy_havven pa) w)) "HavvenEscrow" (VContract e) re ∧
    printed (trace (exec b (deploy_havven pa) w))
      = [VStr ("Deployment initiated." +:+ NL)]
        :: [VStr (NL +:+ "Deployment complete." +:+ NL)]
        :: (if pa
            then [[VStr "Addresses"]; [VStr ("========" +:+ NL)];
                  [VStr ("Havven: " +:+ h)]; [VStr ("Nomin:  " +:+ n)];
                  [VStr ("Court:  " +:+ c)]; [VStr ("Escrow: " +:+ e)]; []]
            else []).
Proof.
  revert ret. unfold Deploy.deploy_havven, deployed, printed. cbn;
    run_to_end ltac:(
      intros ret Hret; cbn in Hret; simplify_eq;
      (do 8 eexists; split_and!;
       [deployed_at 2 | deployed_at 3 | deployed_at 4 | deployed_at 5
       | reflexivity])).
Qed.

End DeployRuns.
End DeployRuns.

Module DeployOutcomes.
Import Deploy Vocabulary Scenarios.

(** The wiring of the contracts: under every backend, every transaction
    [deploy_havven] submits is sent from [MASTER] and is one of the three
    links of the source ([setNomin] on Havven with EtherNomin, [setEscrow]
    on Havven with HavvenEscrow, [setCourt] on EtherNomin with Court); it
    is called on the instance the deployment step of its target returned
    and its only argument is the address of the instance the deployment
    step of the other artifact returned. *)
Theorem links_connect_deployed_instances MASTER UNIT b (w : world b) pa k f params o :
  let tr := trace (exec b (deploy_havven MASTER UNIT pa) w) in
  tr !! k = Some (Method f "transact" params, o) →
  params = [VDict [("from", MASTER)]] ∧
  ∃ fn target arg t a rt ra,
    f = VContractFunction (VContract t) fn [VStr a] ∧
    (fn, target, arg) ∈ links ∧
    deployed tr target (VContract t) rt ∧
    deployed tr arg (VContract a) ra.
Proof. apply DeployRuns.link_targets. Qed.

Lemma links_connect_deployed_instances_witness :
  let tr := trace (exec (chain "0x" never) (deploy_havven MASTER UNIT false) tt) in
  [VDict [("from", MASTER)]] = [VDict [("from", MASTER)]] ∧
  ∃ fn target arg t a rt ra,
    VContractFunction (VContract "0xHavven") "setEscrow" [VStr "0xHavvenEscrow"]
      = VContractFunction (VContract t) fn [VStr a] ∧
    (fn, target, arg) ∈ links ∧
    deployed tr target (VContract t) rt ∧
    deployed tr arg (VContract a) ra.
Proof.
  apply (links_connect_deployed_instances MASTER UNIT (chain "0x" never) tt false 7
           (VContractFunction (VContract "0xHavven") "setEscrow" [VStr "0xHavvenEscrow"])
           [VDict [("from", MASTER)]] (inr (VStr "tx:setEscrow"))).
  vm_compute. reflexivity.
Defined.

(** A deployment helper that hands back something that is not a pair:
    under every backend, if any [attempt_deploy] call returns a value
    whose unpacking into instance and receipt raises (a non-iterable, or
    a sequence of another length than two), [deploy_havven] raises that
    very exception and that call is the last one of the run: no later
    artifact is deployed and nothing is linked. *)
Theorem unusable_deployment_result_stops_run MASTER UNIT b (w : world b) pa
    k compiled name ctor v e :
  let r := exec b (deploy_havven MASTER UNIT pa) w in
  trace r !! k = Some (deploy_event MASTER compiled name ctor, inr v) →
  unpack2 v = Raise e →
  result r = inl e ∧ length (trace r) = S k.
Proof. apply DeployRuns.unusable_result_stops. Qed.

Lemma unusable_deployment_result_stops_run_witness :
  let r := exec bare_instance_chain (deploy_havven MASTER UNIT true) tt in
  result r = inl (mkExn TypeError [VStr "cannot unpack non-iterable object"]) ∧
  length (trace r) = 3.
Proof.
  apply (unusable_deployment_result_stops_run MASTER UNIT bare_instance_chain tt true
           2 VNone "Havven" [MASTER] (VContract "0xHavven")).
  - vm_compute. reflexivity.
  - reflexivity.
Defined.

(** A run that returns: under every backend, if [deploy_havven] returns
    then every external call of the run returned (none raised and was
    swallowed), the four artifacts were deployed in the order of the
    plan, the receipts step of the linking phase was reached and
    returned, and the value returned is the 6-tuple of the instances the
    deployment steps of Havven, EtherNomin and Court handed back, in that
    order, followed by the receipts of those same three steps. *)
Theorem returned_run_completed_every_step MASTER UNIT b (w : world b) pa ret :
  let r := exec b (deploy_havven MASTER UNIT pa) w in
  result r = inr ret →
  Forall (λ en : entry, ∃ v, en.2 = inr v) (trace r) ∧
  omap deployed_name (trace r) = plan ∧
  (∃ k txs v, trace r !! k = Some (mine_event txs, inr v)) ∧
  ∃ h n c rh rn rc,
    deployed (trace r) "Havven" h rh ∧
    deployed (trace r) "EtherNomin" n rn ∧
    deployed (trace r) "Court" c rc ∧
    ret = VTuple [h; n; c; rh; rn; rc].
Proof. apply DeployRuns.completed_run. Qed.

Lemma returned_run_completed_every_step_witness :
  omap deployed_name (trace (exec (chain "0x" never) (deploy_havven MASTER UNIT false) tt))
  = plan.
Proof.
  refine (proj1 (proj2 (returned_run_completed_every_step MASTER UNIT (chain "0x" never) tt false
            (VTuple [VContract "0xHavven"; VContract "0xEtherNomin"; VContract "0xCourt";
                     receipt 1 "0xHavven"; receipt 1 "0xEtherNomin"; receipt 1 "0xCourt"])
            _))).
  vm_compute. reflexivity.
Defined.

(** What a run that returns has printed: under every backend, the
    successful [print] calls of a run of [deploy_havven] that returns are
    the two progress lines and, exactly when [print_addresses] is set,
    the address table after them: its two header lines, one line each
    for Havven, Nomin, Court and Escrow carrying the address of the
    instance the deployment step of Havven, EtherNomin, Court and
    HavvenEscrow handed back, and an empty line.  Without
    [print_addresses] nothing else is printed. *)
Theorem addresses_printed_on_request MASTER UNIT b (w : world b) pa ret :
  let r := exec b (deploy_havven MASTER UNIT pa) w in
  result r = inr ret →
  ∃ h n c e rh rn rc re,
    deployed (trace r) "Havven" (VContract h) rh ∧
    deployed (trace r) "EtherNomin" (VContract n) rn ∧
    deployed (trace r) "Court" (VContract c) rc ∧
    deployed (trace r) "HavvenEscrow" (VContract e) re ∧
    printed (trace r)
      = [VStr ("Deployment initiated." +:+ NL)]
        :: [VStr (NL +:+ "Deployment complete." +:+ NL)]
        :: (if pa
            then [[VStr "Addresses"]; [VStr ("========" +:+ NL)];
                  [VStr ("Havven: " +:+ h)]; [VStr ("Nomin:  " +:+ n)];
                  [VStr ("Court:  " +:+ c)]; [VStr ("Escrow: " +:+ e)]; []]
            else []).
Proof. apply DeployRuns.printed_lines. Qed.

Lemma addresses_printed_on_request_witness :
  let r := exec (chain "0x" never) (deploy_havven MASTER UNIT true) tt in
  ∃ h n c e rh rn rc re,
    deployed (trace r) "Havven" (VContract h) rh ∧
    deployed (trace r) "EtherNomin" (VContract n) rn ∧
    deployed (trace r) "Court" (VContract c) rc ∧
    deployed (trace r) "HavvenEscrow" (VContract e) re ∧
    printed (trace r)
      = [VStr ("Deployment initiated." +:+ NL)]
        :: [VStr (NL +:+ "Deployment complete." +:+ NL)]
        :: [[VStr "Addresses"]; [VStr ("========" +:+ NL)];
            [VStr ("Havven: " +:+ h)]; [VStr ("Nomin:  " +:+ n)];
            [VStr ("Court:  " +:+ c)]; [VStr ("Escrow: " +:+ e)]; []].
Proof.
  apply (addresses_printed_on_request MASTER UNIT (chain "0x" never) tt true
           (VTuple [VContract "0xHavven"; VContract "0xEtherNomin"; VContract "0xCourt";
                    receipt 1 "0xHavven"; receipt 1 "0xEtherNomin"; receipt 1 "0xCourt"])).
  vm_compute. reflexivity.
Defined.

End DeployOutcomes.

(* ===================================================================== *)
(** ** More on the test units of test_Owned.py and test_ERC20FeeToken.py  *)
(* ===================================================================== *)

Module UnitRuns.
Import Facade Harness Vocabulary Scenarios TestUtils.

Ltac answer :=
  match goal with
  | |- context [handle ?b ?ev ?w] =>
      let w' := fresh "w" in destruct (handle b ev w) as [[?|?] w']
  end; run_simpl.

Lemma owner_test b (w : world b) MASTER self :
  let r := exec b (TestOwned.test_owner_is_master MASTER self) w in
  (result r = inr tt ↔
   ∃ owned a,
     self !! "owned" = Some (VContract owned) ∧
     trace r = [(Method (VContractFunction (VContract owned) "owner" []) "call" [], inr a)] ∧
     py_eq a MASTER = true) ∧
  Forall (λ en : entry, ∃ f, en.1 = Method f "call" []) (trace r).
Proof.
  unfold TestOwned.test_owner_is_master, TestOwned.owned_function, getattr, assertEqual.
  destruct (self !! "owned") as [[]|]; cbn;
    try (split; [split; [by intros [=]|by intros (?&?&[=]&_)]|constructor]).
  answer.
  - split; [split; [by intros [=]|by intros (?&?&_&[=]&_)]|].
    repeat constructor. by eexists.
  - destruct (py_eq v MASTER) eqn:Heq; run_simpl.
    + split; [split; [by eexists _, _|done]|]. repeat constructor. by eexists.
    + split; [split; [by intros [=]|]|].
      * intros (?&?&_&[= <-]&?). congruence.
      * repeat constructor. by eexists.
Qed.

Lemma fee_token_constructor_test b (w : world b) MASTER UNIT self :
  Forall (λ en : entry, ∃ f, en.1 = Method f "call" [])
    (trace (exec b (TestERC20FeeToken.test_constructor MASTER UNIT self) w)).
Proof.
  unfold TestERC20FeeToken.test_constructor, TestERC20FeeToken.contract_function,
    getattr, assertEqual.
  destruct (self !! "erc20feetoken") as [[]|]; cbn; try constructor.
  repeat first
    [ answer
    | match goal with
      | |- context [py_eq ?a ?c] => destruct (py_eq a c); run_simpl
      end ];
  repeat (constructor; [by eexists|]); constructor.
Qed.






End UnitRuns.

Module UnitOutcomes.
Import Facade Harness Vocabulary Scenarios TestUtils.

(** TestOwned.test_owner_is_master: under every backend the unit passes
    exactly when the instance stored by [setUpClass] is a contract whose
    [owner()] view call returned a value equal to [MASTER], and that call
    is then the only thing the unit did; whether it passes or not, the
    unit issues nothing but argumentless view calls (it submits no
    transaction and mines nothing). *)
Theorem owner_test_passes_iff_owner_is_master b (w : world b) MASTER self :
  let r := exec b (TestOwned.test_owner_is_master MASTER self) w in
  (result r = inr tt ↔
   ∃ owned a,
     self !! "owned" = Some (VContract owned) ∧
     trace r = [(Method (VContractFunction (VContract owned) "owner" []) "call" [], inr a)] ∧
     py_eq a MASTER = true) ∧
  Forall (λ en : entry, ∃ f, en.1 = Method f "call" []) (trace r).
Proof. apply UnitRuns.owner_test. Qed.

(** TestERC20FeeToken.test_constructor only reads: under every backend,
    however the unit ends, every external call it makes is an
    argumentless [.call()] on a contract function; it never submits a
    transaction and never mines. *)
Theorem fee_token_constructor_test_only_reads b (w : world b) MASTER UNIT self :
  Forall (λ en : entry, ∃ f, en.1 = Method f "call" [])
    (trace (exec b (TestERC20FeeToken.test_constructor MASTER UNIT self) w)).
Proof. apply UnitRuns.fee_token_constructor_test. Qed.




End UnitOutcomes.
